(** * EchoVerse gateway: the handlers of [server.js]

    A shallow embedding of the three request handlers of [server.js]
    ([POST /api/generate], [POST /api/tts], [POST /api/stt]) and of the
    JavaScript operations they are written with, followed by the
    properties of the normalisation and error-mapping layer. *)

From Stdlib Require Import ZArith QArith String Ascii List Bool Lia.
From stdpp Require Import gmap strings.
Import ListNotations.
Local Set Warnings "-register-all".
Local Close Scope Q_scope.
Local Open Scope string_scope.
Local Open Scope Z_scope.

(** ** JavaScript values

    The data that flows through the handlers is JSON data: parsed
    request bodies, the providers' response objects and the error
    objects they throw.

    - a JS string is modelled by a [string] holding one [ascii] per
      code unit, i.e. the strings whose code units are below 256;
    - a JS number is kept as the text that Number::toString gives it
      ("0", "-12", "0.5", "1e+21", "NaN", "Infinity"): distinct numbers
      have distinct texts, but for the two zeros, which none of the
      operations below tells apart (none of the handlers computes with
      a number);
    - an object is the list of its own enumerable properties in
      enumeration order; a property read takes the first binding. *)
Module JS.

Inductive value : Type :=
| VUndefined
| VNull
| VBool (b : bool)
| VNum (text : string)
| VStr (s : string)
| VArr (items : list value)
| VObj (props : list (string * value)).

(** Completion of an evaluation: a value, or a thrown value. *)
Inductive outcome (A : Type) : Type :=
| Ok (a : A)
| Throw (err : value).
Arguments Ok {A} a.
Arguments Throw {A} err.

Definition obind {A B} (o : outcome A) (k : A -> outcome B) : outcome B :=
  match o with
  | Ok a => k a
  | Throw e => Throw e
  end.

(** The runtime's [TypeError]s. Only [name] and [message] are kept; in
    particular such an error has no [response] property. *)
Definition TypeError (message : string) : value :=
  VObj [("name", VStr "TypeError"); ("message", VStr message)].

(** [v === undefined || v === null]: the test behind [?.] and [??]. *)
Definition nullish (v : value) : bool :=
  match v with
  | VUndefined | VNull => true
  | _ => false
  end.

(** ToBoolean. *)
Definition truthy (v : value) : bool :=
  match v with
  | VUndefined | VNull => false
  | VBool b => b
  | VNum text => negb (String.eqb text "0" || String.eqb text "NaN")
  | VStr s => negb (String.eqb s "")
  | VArr _ | VObj _ => true
  end.

(** [a ?? b] and [a || b], on already evaluated operands (every right
    operand in [server.js] is free of effects). *)
Definition nullish_coalesce (a b : value) : value :=
  if nullish a then b else a.

Definition logical_or (a b : value) : value :=
  if truthy a then a else b.

Fixpoint assoc (k : string) (props : list (string * value)) : value :=
  match props with
  | [] => VUndefined
  | (k', v) :: rest => if String.eqb k k' then v else assoc k rest
  end.

(** [v.k] for a [v] that is neither [undefined] nor [null], and a data
    key [k]: a name that no prototype defines (all the keys read by
    [server.js] are of that kind: result, generated_text, output_text,
    response, results, alternatives, transcript, prompt, task, tone,
    text, voice, format). *)
Definition own_prop (v : value) (k : string) : value :=
  match v with
  | VObj props => assoc k props
  | _ => VUndefined
  end.

(** [v.k]: throws on [undefined] and [null]. *)
Definition member (v : value) (k : string) : outcome value :=
  if nullish v
  then Throw (TypeError ("Cannot read properties of " ++
                         (if v is VNull then "null" else "undefined") ++
                         " (reading '" ++ k ++ "')"))
  else Ok (own_prop v k).

(** [v?.k]. *)
Definition opt_member (v : value) (k : string) : value :=
  if nullish v then VUndefined else own_prop v k.

(** [v?.[0]]: the first element of an array, the first code unit of a
    string, the property named 0 of an object. *)
Definition opt_index0 (v : value) : value :=
  match v with
  | VArr (x :: _) => x
  | VStr (String c _) => VStr (String c EmptyString)
  | VObj props => assoc "0" props
  | _ => VUndefined
  end.

(** Whether an object has an own property of that name. *)
Fixpoint has_own (k : string) (props : list (string * value)) : bool :=
  match props with
  | [] => false
  | (k', _) :: rest => String.eqb k k' || has_own k rest
  end.

(** ToString. An array is joined with commas, [undefined] and [null]
    elements giving the empty string. A data object takes
    Object.prototype.toString and gives "[object Object]", unless it
    has an own [toString] property: that one shadows the method, is no
    function, and [valueOf] returns the object itself, so the
    conversion throws a TypeError. *)
Fixpoint ToString (v : value) : outcome string :=
  match v with
  | VUndefined => Ok "undefined"
  | VNull => Ok "null"
  | VBool true => Ok "true"
  | VBool false => Ok "false"
  | VNum text => Ok text
  | VStr s => Ok s
  | VArr items =>
      let fix each (l : list value) : outcome (list string) :=
        match l with
        | [] => Ok []
        | x :: l' =>
            obind (if nullish x then Ok "" else ToString x) (fun s =>
            obind (each l') (fun rest => Ok (s :: rest)))
        end in
      obind (each items) (fun texts => Ok (String.concat "," texts))
  | VObj props =>
      if has_own "toString" props
      then Throw (TypeError "Cannot convert object to primitive value")
      else Ok "[object Object]"
  end.

(** The texts of the elements of an array, as [join] takes them: in
    order, stopping at the first conversion that throws. *)
Fixpoint element_texts (items : list value) : outcome (list string) :=
  match items with
  | [] => Ok []
  | x :: rest =>
      obind (if nullish x then Ok "" else ToString x) (fun s =>
      obind (element_texts rest) (fun texts => Ok (s :: texts)))
  end.

(** Array.prototype.join. *)
Definition Array_join (sep : string) (items : list value) : outcome string :=
  obind (element_texts items) (fun texts => Ok (String.concat sep texts)).

(** Template literals: the substitutions are converted with ToString. *)
Definition template_subst (v : value) : outcome string := ToString v.

(** *** String.prototype.trim *)

(** WhiteSpace and LineTerminator code units below 256: TAB, LF, VT,
    FF, CR, SP and NBSP. *)
Definition is_white_space (c : ascii) : bool :=
  match N_of_ascii c with
  | 9 | 10 | 11 | 12 | 13 | 32 | 160 => true
  | _ => false
  end%N.

Fixpoint trimStart (s : string) : string :=
  match s with
  | EmptyString => EmptyString
  | String c s' => if is_white_space c then trimStart s' else s
  end.

Fixpoint trimEnd (s : string) : string :=
  match s with
  | EmptyString => EmptyString
  | String c s' =>
      match trimEnd s' with
      | EmptyString => if is_white_space c then EmptyString
                       else String c EmptyString
      | t => String c t
      end
  end.

Definition trim (s : string) : string := trimEnd (trimStart s).

(** *** JSON.stringify *)

Definition hex_digit (n : N) : ascii :=
  match String.get (N.to_nat n) "0123456789abcdef" with
  | Some c => c
  | None => "0"%char
  end.

(** QuoteJSONString, one code unit at a time. *)
Definition quote_code_unit (c : ascii) : string :=
  let backslash := "092"%char in
  let n := N_of_ascii c in
  match n with
  | 8 => String backslash "b"
  | 9 => String backslash "t"
  | 10 => String backslash "n"
  | 12 => String backslash "f"
  | 13 => String backslash "r"
  | 34 => String backslash (String c EmptyString)
  | 92 => String backslash (String c EmptyString)
  | _ =>
      if (n <? 32)%N
      then String backslash
             (String "u" (String "0" (String "0"
                (String (hex_digit (n / 16)) (String (hex_digit (n mod 16))
                   EmptyString)))))
      else String c EmptyString
  end%N.

Fixpoint quote_body (s : string) : string :=
  match s with
  | EmptyString => EmptyString
  | String c s' => quote_code_unit c ++ quote_body s'
  end.

Definition QuoteJSONString (s : string) : string :=
  String "034"%char (quote_body s ++ String "034"%char EmptyString).

(** SerializeJSONProperty without indentation: [None] is the
    [undefined] result, which an array renders as null and an object
    leaves out. *)
Fixpoint serialize (v : value) : option string :=
  match v with
  | VUndefined => None
  | VNull => Some "null"
  | VBool true => Some "true"
  | VBool false => Some "false"
  | VNum text =>
      (* JSON.stringify renders the numbers that are not finite as null *)
      if String.eqb text "NaN" || String.eqb text "Infinity"
         || String.eqb text "-Infinity"
      then Some "null" else Some text
  | VStr s => Some (QuoteJSONString s)
  | VArr items =>
      let fix elements (l : list value) : list string :=
        match l with
        | [] => []
        | x :: l' => default "null" (serialize x) :: elements l'
        end in
      Some ("[" ++ String.concat "," (elements items) ++ "]")
  | VObj props =>
      let fix members (l : list (string * value)) : list string :=
        match l with
        | [] => []
        | (k, x) :: l' =>
            match serialize x with
            | Some s => (QuoteJSONString k ++ ":" ++ s) :: members l'
            | None => members l'
            end
        end in
      Some ("{" ++ String.concat "," (members props) ++ "}")
  end.

Definition JSON_stringify (v : value) : value :=
  match serialize v with
  | Some s => VStr s
  | None => VUndefined
  end.

End JS.

Import JS.

(** ** The handlers' world: SDK clients, file system, response object *)
Module Server.

(** *** Parameter records of the SDK calls *)

Record DecodingParameters := {
  decoding_method : string;
  max_new_tokens : Z;
  stop_sequences : list string;
  temperature : Q }.

(** The argument of [wx.generateText]; [context_system_prompt] is
    [context.system_prompt]. *)
Record GenerateTextParams := {
  modelId : string;
  input : value;
  projectId : value;
  parameters : DecodingParameters;
  context_system_prompt : string }.

Record SynthesizeParams := {
  text : value;
  accept : value;
  voice : value }.

Definition Stream := list Byte.byte.
Definition Buffer := list Byte.byte.

(** The SDK response of [tts.synthesize], as the SDK types it. *)
Record SynthesizeResponse := { result : Stream }.

(** A read stream opened by [fs.createReadStream]. *)
Record ReadStream := { stream_path : string }.

Record RecognizeParams := {
  audio : ReadStream;
  contentType : string;
  model : string }.

(** [req.file] as multer's [upload.single] leaves it: [path] is the
    file it wrote, the destination "uploads/" followed by a random
    hexadecimal name, and [mimetype] the MIME type of the uploaded
    part. *)
Record UploadedFile := {
  path : string;
  mimetype : string }.

(** *** Observable effects *)

Inductive event : Type :=
| EGenerateText (p : GenerateTextParams)
| ESynthesize (p : SynthesizeParams)
| ERepairWavHeaderStream (s : Stream)
| ECreateReadStream (p : string)
| ERecognize (p : RecognizeParams)
| EUnlink (p : string)
| EConsoleError (label : string) (detail : value).

Inductive payload : Type :=
| JsonBody (v : value)
| RawBody (b : Buffer).

(** What the handler did to [res]: the status it set, the headers it
    set itself through [res.setHeader], as [res.send] leaves them (it
    replaces a Content-Type that is not truthy when it sends a raw
    body), and the body it sent. The headers Express derives on its own
    (for a JSON body, lengths, tags) are not recorded. *)
Record Response := {
  statusCode : Z;
  headers : list (string * value);
  sent : option payload }.

Definition fresh_response : Response :=
  {| statusCode := 200; headers := []; sent := None |}.

Record State := {
  trace : list event;
  disk : gset string;
  response : Response }.

Definition initial (files : gset string) : State :=
  {| trace := []; disk := files; response := fresh_response |}.

(** The collaborators: the three SDK clients, each call either
    resolving or rejecting (a run in which an awaited call never
    settles is not described), and the runtime's check of a header
    value ([res.setHeader] throws on a value it refuses). *)
Record Services := {
  wx_generateText : GenerateTextParams -> outcome value;
  tts_synthesize : SynthesizeParams -> outcome SynthesizeResponse;
  tts_repairWavHeaderStream : Stream -> outcome Buffer;
  stt_recognize : RecognizeParams -> outcome value;
  header_value_ok : value -> bool }.

(** *** The handler monad: state that survives a throw *)

Definition M (A : Type) : Type := State -> outcome A * State.

Definition ret {A} (a : A) : M A := fun s => (Ok a, s).

Definition bind {A B} (m : M A) (k : A -> M B) : M B :=
  fun s =>
    match m s with
    | (Ok a, s') => k a s'
    | (Throw e, s') => (Throw e, s')
    end.

Definition lift {A} (o : outcome A) : M A := fun s => (o, s).

(** [try { body } catch (err) { handler err }] *)
Definition try_catch {A} (body : M A) (handler : value -> M A) : M A :=
  fun s =>
    match body s with
    | (Ok a, s') => (Ok a, s')
    | (Throw e, s') => handler e s'
    end.

Declare Scope js_scope.
Delimit Scope js_scope with js.
Notation "'let*' x ':=' m 'in' k" := (bind m (fun x => k))
  (at level 10, x name, m at level 100, k at level 200) : js_scope.
Notation "m ';;' k" := (bind m (fun _ => k))
  (at level 100, k at level 200, right associativity) : js_scope.
Local Open Scope js_scope.

Definition emit (e : event) : M unit :=
  fun s => (Ok tt, {| trace := trace s ++ [e]; disk := disk s;
                      response := response s |}).

(** An awaited SDK call: recorded, then resolved or rejected. *)
Definition call {A} (e : event) (o : outcome A) : M A :=
  emit e ;; lift o.

Definition update_response (f : Response -> Response) : M unit :=
  fun s => (Ok tt, {| trace := trace s; disk := disk s;
                      response := f (response s) |}).

Definition res_status (code : Z) : M unit :=
  update_response (fun r =>
    {| statusCode := code; headers := headers r; sent := sent r |}).

Definition res_json (v : value) : M unit :=
  update_response (fun r =>
    {| statusCode := statusCode r; headers := headers r;
       sent := Some (JsonBody v) |}).

(** Setting a header replaces the value the name had, or adds the
    name. The handlers spell the one name they set in one way. *)
Fixpoint set_header (name : string) (v : value) (hs : list (string * value))
  : list (string * value) :=
  match hs with
  | [] => [(name, v)]
  | (k, x) :: rest =>
      if String.eqb k name then (k, v) :: rest
      else (k, x) :: set_header name v rest
  end.

(** [res.send] of a Buffer: [if (!this.get('Content-Type'))
    this.type('bin')], then the bytes. *)
Definition res_send (b : Buffer) : M unit :=
  update_response (fun r =>
    {| statusCode := statusCode r;
       headers := if truthy (assoc "Content-Type" (headers r))
                  then headers r
                  else set_header "Content-Type"
                         (VStr "application/octet-stream") (headers r);
       sent := Some (RawBody b) |}).

Definition console_error (label : string) (detail : value) : M unit :=
  emit (EConsoleError label detail).

(** [fs.unlink(p, () => {})]: the removal is issued and its error, if
    any, is dropped by the empty callback. *)
Definition fs_unlink (p : string) : M unit :=
  fun s => (Ok tt, {| trace := trace s ++ [EUnlink p];
                      disk := disk s ∖ {[ p ]};
                      response := response s |}).

Definition fs_createReadStream (p : string) : M ReadStream :=
  emit (ECreateReadStream p) ;; ret {| stream_path := p |}.

(** Object destructuring: the source must not be [undefined] or
    [null]; a default applies to a property that is [undefined]. *)
Definition destructure_source (v : value) (first_key : string) : outcome unit :=
  if nullish v
  then Throw (TypeError ("Cannot destructure property '" ++ first_key ++
                         "' of 'req.body' as it is " ++
                         (if v is VNull then "null" else "undefined") ++ "."))
  else Ok tt.

Definition with_default (v d : value) : value :=
  match v with
  | VUndefined => d
  | _ => v
  end.

(** [err?.response?.result || err], the detail every catch logs. *)
Definition error_detail (err : value) : value :=
  logical_or (opt_member (opt_member err "response") "result") err.

Definition LF : string := String "010"%char EmptyString.

Section Handlers.

Context (env : gmap string string) (svc : Services).

(** [process.env.NAME] *)
Definition process_env (name : string) : value :=
  match env !! name with
  | Some s => VStr s
  | None => VUndefined
  end.

(** The text a template literal gives [process.env.NAME], which is a
    string or [undefined]. *)
Definition process_env_text (name : string) : string :=
  match env !! name with
  | Some s => s
  | None => "undefined"
  end.

Definition res_setHeader (name : string) (v : value) : M unit :=
  if header_value_ok svc v
  then update_response (fun r =>
         {| statusCode := statusCode r; headers := set_header name v (headers r);
            sent := sent r |})
  else lift (Throw (TypeError ("Invalid value for header " ++ name))).

(** **** POST /api/generate *)

Definition GRANITE_MODEL : string := "ibm/granite-13b-instruct-v2".

(** The template literal of lines 45-46: the task is converted first,
    then the tone, and either conversion may throw. *)
Definition system_prompt (task tone : value) : outcome string :=
  obind (template_subst task) (fun task_text =>
  obind (template_subst tone) (fun tone_text =>
    Ok ("You are EchoVerse's writer. Task: " ++ task_text ++ "." ++ LF ++
        "Tone: " ++ tone_text ++
        ". Keep meaning intact. Output only the transformed text."))).

Definition generateParams (prompt : value) (system : string)
  : GenerateTextParams :=
  {| modelId := GRANITE_MODEL;
     input := prompt;
     projectId := process_env "WATSONX_PROJECT_ID";
     parameters := {| decoding_method := "greedy";
                      max_new_tokens := 400;
                      stop_sequences := [];
                      temperature := 0.2%Q |};
     context_system_prompt := system |}.

(** The normalisation of the provider's response (lines 64-68). *)
Definition normalize_generated (result : value) : value :=
  nullish_coalesce (opt_member (opt_member result "result") "generated_text")
    (nullish_coalesce (opt_member result "generated_text")
       (nullish_coalesce (opt_member (opt_member result "result") "output_text")
          (JSON_stringify result))).

Definition generate_body (body : value) : M unit :=
  let* _ := lift (destructure_source body "prompt") in
  let prompt := own_prop body "prompt" in
  let task := with_default (own_prop body "task") (VStr "rewrite") in
  let tone := with_default (own_prop body "tone") (VStr "Neutral") in
  let* system := lift (system_prompt task tone) in
  let params := generateParams prompt system in
  let* result := call (EGenerateText params) (wx_generateText svc params) in
  let text := normalize_generated result in
  res_json (VObj [("text", text)]).

Definition generate_catch (err : value) : M unit :=
  console_error "watsonx error:" (error_detail err) ;;
  res_status 500 ;;
  res_json (VObj [("error", VStr "Granite generation failed")]).

Definition generate_handler (body : value) : M unit :=
  try_catch (generate_body body) generate_catch.

(** **** POST /api/tts *)

Definition tts_body (body : value) : M unit :=
  let* _ := lift (destructure_source body "text") in
  let text := own_prop body "text" in
  let voice := with_default (own_prop body "voice")
                 (logical_or (process_env "TTS_VOICE")
                             (VStr "en-US_AllisonV3Voice")) in
  let format := with_default (own_prop body "format") (VStr "audio/mp3") in
  let params := {| text := text; accept := format; voice := voice |} in
  let* synth := call (ESynthesize params) (tts_synthesize svc params) in
  let* audio := call (ERepairWavHeaderStream (result synth))
                     (tts_repairWavHeaderStream svc (result synth)) in
  res_setHeader "Content-Type" format ;;
  res_send audio.

Definition tts_catch (err : value) : M unit :=
  console_error "TTS error:" (error_detail err) ;;
  res_status 500 ;;
  res_json (VObj [("error", VStr "TTS failed")]).

Definition tts_handler (body : value) : M unit :=
  try_catch (tts_body body) tts_catch.

(** **** POST /api/stt *)

(** The callback of [results.map]: [r.alternatives?.[0]?.transcript || ""] *)
Definition top_transcript (r : value) : outcome value :=
  obind (member r "alternatives") (fun alternatives =>
    Ok (logical_or (opt_member (opt_index0 alternatives) "transcript")
                   (VStr ""))).

Fixpoint Array_map (f : value -> outcome value) (items : list value)
  : outcome (list value) :=
  match items with
  | [] => Ok []
  | x :: rest =>
      obind (f x) (fun y =>
      obind (Array_map f rest) (fun ys => Ok (y :: ys)))
  end.

(** Lines 125-126. The optional chain ends at the first [undefined] or
    [null] link, skipping [map], [join] and [trim]. *)
Definition transcript_of (sttResp : value) : outcome value :=
  let results := opt_member (opt_member sttResp "result") "results" in
  if nullish results then Ok (logical_or VUndefined (VStr ""))
  else
    match results with
    | VArr segments =>
        obind (Array_map top_transcript segments) (fun tokens =>
        obind (Array_join " " tokens) (fun joined =>
          Ok (logical_or (VStr (trim joined)) (VStr ""))))
    | _ => Throw (TypeError "sttResp?.result?.results?.map is not a function")
    end.

Definition stt_body (file : option UploadedFile) : M unit :=
  let* f := lift (match file with
                  | Some f => Ok f
                  | None => Throw (TypeError
                      "Cannot read properties of undefined (reading 'path')")
                  end) in
  let audioPath := path f in
  let contentType := if String.eqb (mimetype f) "" then "audio/webm"
                     else mimetype f in
  let* audioStream := fs_createReadStream audioPath in
  let params := {| audio := audioStream; contentType := contentType;
                   model := "en-US_BroadbandModel" |} in
  let* sttResp := call (ERecognize params) (stt_recognize svc params) in
  fs_unlink audioPath ;;
  let* transcript := lift (transcript_of sttResp) in
  res_json (VObj [("transcript", transcript)]).

Definition stt_catch (err : value) : M unit :=
  console_error "STT error:" (error_detail err) ;;
  res_status 500 ;;
  res_json (VObj [("error", VStr "STT failed")]).

Definition stt_handler (file : option UploadedFile) : M unit :=
  try_catch (stt_body file) stt_catch.

End Handlers.

End Server.

Import Server.
Local Open Scope js_scope.

(** ** The specification's wording, for comparison with the code *)
Module Spec.

(** The three candidate fields of a generation response, in priority
    order: nested generated_text, top-level generated_text, nested
    output_text. A candidate is present when it holds a value other
    than [undefined] or [null]. *)
Definition candidates (r : value) : list value :=
  [ opt_member (opt_member r "result") "generated_text";
    opt_member r "generated_text";
    opt_member (opt_member r "result") "output_text" ].

Definition present (v : value) : bool := negb (nullish v).

Definition first_present_or_serialized (r : value) : value :=
  match List.find present (candidates r) with
  | Some v => v
  | None => JSON_stringify r
  end.

(** Recognised segments with their ranked alternatives. *)
Record Alternative := { transcript : string }.

Definition Segment := list Alternative.

Definition top_alternative (seg : Segment) : string :=
  match seg with
  | a :: _ => transcript a
  | [] => ""
  end.

Definition joined_transcript (segments : list Segment) : string :=
  trim (String.concat " " (List.map top_alternative segments)).

(** A response value carries a segment when it is an object whose
    [alternatives] is the array of the segment's alternatives, each an
    object with that [transcript]; a segment without alternatives may
    also leave [alternatives] out. Other properties are free. *)
Definition carries_alternative (v : value) (a : Alternative) : Prop :=
  own_prop v "transcript" = VStr (transcript a).

Definition carries_segment (v : value) (seg : Segment) : Prop :=
  exists props, v = VObj props /\
    ((exists alts, assoc "alternatives" props = VArr alts /\
                   Forall2 carries_alternative alts seg) \/
     (nullish (assoc "alternatives" props) = true /\ seg = [])).

(** The recognition response carrying the given segments and nothing
    else. *)
Definition encode_segment (seg : Segment) : value :=
  VObj [("alternatives",
         VArr (List.map (fun a => VObj [("transcript", VStr (transcript a))]) seg))].

Definition encode_response (segments : list Segment) : value :=
  VObj [("result", VObj [("results", VArr (List.map encode_segment segments))])].

(** The instruction preamble as the specification words it. *)
Definition preamble (task tone : string) : string :=
  "You are a writer. Task: " ++ task ++ ". Tone: " ++ tone ++
  ". Keep meaning intact. Output only the transformed text.".

End Spec.

(** ** Stub collaborators for concrete runs *)

(** A generation provider answering with a top-level generated_text, a
    synthesis provider returning two bytes, a repair step that leaves
    them as they are, a recogniser hearing two segments. *)
Definition stub_services : Services :=
  {| wx_generateText := fun _ =>
       Ok (VObj [("generated_text", VStr "The sky exhibits a blue hue.")]);
     tts_synthesize := fun _ => Ok {| result := [Byte.x49; Byte.x44] |};
     tts_repairWavHeaderStream := fun s => Ok s;
     stt_recognize := fun _ =>
       Ok (Spec.encode_response
             [[{| Spec.transcript := "hello" |}]; [{| Spec.transcript := "world" |}]]);
     header_value_ok := fun v => if v is VStr _ then true else false |}.

(** The same collaborators with every provider call rejected with the
    given error. *)
Definition failing_services (err : value) : Services :=
  {| wx_generateText := fun _ => Throw err;
     tts_synthesize := fun _ => Throw err;
     tts_repairWavHeaderStream := fun s => Ok s;
     stt_recognize := fun _ => Throw err;
     header_value_ok := fun v => if v is VStr _ then true else false |}.

Definition upstream_error : value :=
  VObj [("response", VObj [("result", VObj [("error", VStr "invalid api key")])])].

(** ** Notions used in the statements *)

(** The response every catch block produces: status 500 and a JSON
    body with the one field [error]. *)
Definition error_response (message : string) : Response :=
  {| statusCode := 500; headers := [];
     sent := Some (JsonBody (VObj [("error", VStr message)])) |}.

(** Final state of a handler run on a fresh response, with the given
    files on disk. *)
Definition final {A} (handler : M A) (files : gset string) : State :=
  snd (handler (initial files)).

(** The parameters each handler builds from its request. *)
(** The task and the tone of a generation request, defaults applied. *)
Definition request_task (body : value) : value :=
  with_default (own_prop body "task") (VStr "rewrite").

Definition request_tone (body : value) : value :=
  with_default (own_prop body "tone") (VStr "Neutral").

(** The parameters the generation handler sends when it comes to send
    any, that is when the system prompt can be built (where it cannot,
    the empty text stands in and nothing is sent). *)
Definition generate_request (env : gmap string string) (body : value)
  : GenerateTextParams :=
  generateParams env (own_prop body "prompt")
    match system_prompt (request_task body) (request_tone body) with
    | Ok system => system
    | Throw _ => ""
    end.

(** The values ToString converts without throwing: no object with an
    own [toString] property, directly or as an element, at any depth,
    of an array. *)
Fixpoint convertible (v : value) : bool :=
  match v with
  | VObj props => negb (has_own "toString" props)
  | VArr items =>
      (fix all (l : list value) : bool :=
         match l with
         | [] => true
         | x :: l' => (nullish x || convertible x) && all l'
         end) items
  | _ => true
  end.

(** Induction on values that reaches the elements of an array. *)
Section ValueInduction.

Variable P : value -> Prop.
Hypothesis P_undefined : P VUndefined.
Hypothesis P_null : P VNull.
Hypothesis P_bool : forall b, P (VBool b).
Hypothesis P_num : forall text, P (VNum text).
Hypothesis P_str : forall s, P (VStr s).
Hypothesis P_arr : forall items, Forall P items -> P (VArr items).
Hypothesis P_obj : forall props, P (VObj props).

Fixpoint value_elements_ind (v : value) : P v :=
  match v with
  | VUndefined => P_undefined
  | VNull => P_null
  | VBool b => P_bool b
  | VNum text => P_num text
  | VStr s => P_str s
  | VArr items =>
      P_arr items
        ((fix each (l : list value) : Forall P l :=
            match l with
            | [] => List.Forall_nil P
            | x :: l' => List.Forall_cons P x l' (value_elements_ind x) (each l')
            end) items)
  | VObj props => P_obj props
  end.

End ValueInduction.

(** The Content-Type a raw body leaves with, for the header value the
    handler set. *)
Definition content_type_sent (format : value) : value :=
  if truthy format then format else VStr "application/octet-stream".

Definition tts_format (body : value) : value :=
  with_default (own_prop body "format") (VStr "audio/mp3").

Definition tts_request (env : gmap string string) (body : value)
  : SynthesizeParams :=
  {| text := own_prop body "text";
     accept := tts_format body;
     voice := with_default (own_prop body "voice")
                (logical_or (process_env env "TTS_VOICE")
                            (VStr "en-US_AllisonV3Voice")) |}.

Definition stt_request (f : UploadedFile) : RecognizeParams :=
  {| audio := {| stream_path := path f |};
     contentType := if String.eqb (mimetype f) "" then "audio/webm"
                    else mimetype f;
     model := "en-US_BroadbandModel" |}.

Definition missing_file_error : value :=
  TypeError "Cannot read properties of undefined (reading 'path')".

(** ** The watsonx authenticator *)
Module Auth.

(** The request options the SDK hands to an authenticator, as the SDK
    types them: the headers object, when there is one, and the other
    options. *)
Record AuthenticateOptions := {
  request_headers : option (gmap string value);
  other_options : gmap string value }.

(** [authenticate] (lines 30-34), as a function to the options it
    leaves behind: [options.headers] is kept or becomes a new object,
    then receives the Authorization entry. *)
Definition authenticate (env : gmap string string)
    (options : AuthenticateOptions) : AuthenticateOptions :=
  let headers := default (∅ : gmap string value) (request_headers options) in
  {| request_headers :=
       Some (<["Authorization" :=
                 VStr ("Bearer " ++ process_env_text env "WATSONX_API_KEY")]> headers);
     other_options := other_options options |}.

End Auth.

(** ** Counting the events of a run *)

Definition is_generateText (e : event) : bool :=
  if e is EGenerateText _ then true else false.

Definition is_synthesize (e : event) : bool :=
  if e is ESynthesize _ then true else false.

Definition is_repair (e : event) : bool :=
  if e is ERepairWavHeaderStream _ then true else false.

Definition is_recognize (e : event) : bool :=
  if e is ERecognize _ then true else false.

Definition is_sdk_call (e : event) : bool :=
  is_generateText e || is_synthesize e || is_repair e || is_recognize e.

Definition is_console_error (e : event) : bool :=
  if e is EConsoleError _ _ then true else false.

Definition is_fs_event (e : event) : bool :=
  match e with
  | ECreateReadStream _ | EUnlink _ => true
  | _ => false
  end.

Definition count (P : event -> bool) (s : State) : nat :=
  length (List.filter P (trace s)).

(** A status-200 JSON answer with the given fields. *)
Definition ok_json (fields : list (string * value)) : Response :=
  {| statusCode := 200; headers := []; sent := Some (JsonBody (VObj fields)) |}.

(** Unfolds a handler run down to the SDK calls. *)
Ltac run_handler :=
  cbv [generate_handler generate_body generate_catch set_header
       tts_handler tts_body tts_catch res_setHeader
       stt_handler stt_body stt_catch
       try_catch bind ret lift call emit console_error update_response
       res_status res_json res_send fs_unlink fs_createReadStream
       destructure_source initial final fresh_response error_response];
  cbn [trace disk response statusCode headers sent app fst snd].

(** * Properties *)

(** ** JavaScript operations *)

Lemma ToString_array (items : list value) :
  ToString (VArr items) = Array_join "," items.
Proof. reflexivity. Qed.

Lemma nullish_coalesce_absent (a b : value) :
  nullish a = true -> nullish_coalesce a b = b.
Proof. unfold nullish_coalesce. now intros ->. Qed.

Lemma logical_or_string (s : string) : logical_or (VStr s) (VStr "") = VStr s.
Proof.
  unfold logical_or. simpl. destruct (String.eqb_spec s ""); simpl; congruence.
Qed.

(** JSON.stringify yields text for everything but [undefined]. *)
Lemma serialize_defined (v : value) :
  v <> VUndefined -> exists s, serialize v = Some s.
Proof.
  destruct v as [| |[]|text| | |]; simpl; intros H; try (eexists; reflexivity).
  - congruence.
  - destruct (_ || _); eexists; reflexivity.
Qed.

(** *** What ToString converts *)

Lemma convertible_array (items : list value) :
  convertible (VArr items)
  = forallb (fun x => nullish x || convertible x) items.
Proof.
  induction items as [|x items IH]; [reflexivity|].
  cbn [forallb]. rewrite <- IH. reflexivity.
Qed.

Lemma element_texts_ok (items : list value) :
  Forall (fun v => convertible v = true <-> exists s, ToString v = Ok s) items ->
  forallb (fun x => nullish x || convertible x) items = true <->
  exists texts, element_texts items = Ok texts.
Proof.
  induction 1 as [|x items Hx _ IH]; cbn [forallb element_texts].
  - split; [intros _; now eexists|reflexivity].
  - rewrite andb_true_iff, IH. destruct (nullish x); cbn [orb obind].
    + split.
      * intros [_ [texts ->]]. now eexists.
      * intros [texts H]. split; [reflexivity|].
        destruct (element_texts items); [now eexists|discriminate H].
    + rewrite Hx. split.
      * intros [[s ->] [texts ->]]. now eexists.
      * intros [texts H]. destruct (ToString x); [|discriminate H].
        split; [now eexists|].
        cbn [obind] in H. destruct (element_texts items); [now eexists|discriminate H].
Qed.

Lemma ToString_convertible (v : value) :
  convertible v = true <-> exists s, ToString v = Ok s.
Proof.
  induction v as [| |[]|text|s|items IH|props] using value_elements_ind;
    try (split; [intros _; eexists; reflexivity|reflexivity]).
  - rewrite convertible_array, (element_texts_ok items IH), ToString_array.
    unfold Array_join. split.
    + intros [texts ->]. now eexists.
    + intros [s H]. destruct (element_texts items); [now eexists|discriminate H].
  - cbn [convertible ToString]. destruct (has_own "toString" props); cbn [negb].
    + split; [discriminate|]. intros [s H]. discriminate H.
    + split; [intros _; now eexists|reflexivity].
Qed.

Lemma ToString_throws_iff (v : value) :
  convertible v = false <-> exists e, ToString v = Throw e.
Proof.
  pose proof (ToString_convertible v) as H.
  destruct (convertible v), (ToString v) as [s|e].
  - split; [discriminate|]. intros [e' He]. discriminate He.
  - destruct (proj1 H eq_refl) as [s Hs]. discriminate Hs.
  - assert (false = true) by (apply H; now eexists). discriminate.
  - split; [intros _; now eexists|reflexivity].
Qed.

Lemma system_prompt_ok (task tone : value) :
  (exists system, system_prompt task tone = Ok system) <->
  convertible task = true /\ convertible tone = true.
Proof.
  rewrite !ToString_convertible. unfold system_prompt, template_subst.
  destruct (ToString task) as [t|]; cbn [obind].
  - destruct (ToString tone) as [v|]; cbn [obind].
    + split; [intros _; split; now eexists|intros _; now eexists].
    + split; [intros [s H]; discriminate H|intros [_ [s H]]; discriminate H].
  - split; [intros [s H]; discriminate H|intros [[s H] _]; discriminate H].
Qed.

Lemma process_env_text_subst env (name : string) :
  template_subst (process_env env name) = Ok (process_env_text env name).
Proof.
  unfold template_subst, process_env, process_env_text.
  destruct (env !! name); reflexivity.
Qed.

Example ToString_sample :
  ToString (VArr [VNum "1e+21"; VNull; VArr [VStr "a"; VBool true]; VObj []])
  = Ok "1e+21,,a,true,[object Object]".
Proof. reflexivity. Qed.

Example ToString_own_toString :
  ToString (VObj [("toString", VNum "1")])
  = Throw (TypeError "Cannot convert object to primitive value").
Proof. reflexivity. Qed.

Example JSON_stringify_sample :
  JSON_stringify
    (VObj [("a", VArr [VNum "1"; VUndefined; VStr "x"]); ("b", VUndefined);
           ("c", VObj [("d", VNull)]); ("e", VNum "-12")])
  = VStr (String "123"%char (String "034"%char "a" ++ String "034"%char ":[1,null," ++
          String "034"%char "x" ++ String "034"%char "]," ++
          String "034"%char "c" ++ String "034"%char ":{" ++
          String "034"%char "d" ++ String "034"%char ":null}," ++
          String "034"%char "e" ++ String "034"%char ":-12}")).
Proof. reflexivity. Qed.

Example trim_sample :
  trim (String "009"%char " a  b " ++ String "010"%char "") = "a  b".
Proof. reflexivity. Qed.

(** ** Generation: response normalisation *)

(** C2. The normaliser of the generation response returns the first
    present candidate among nested generated_text, top-level
    generated_text and nested output_text, in that order; when the
    three are absent from a response [r] (anything but [undefined]) it
    returns JSON.stringify of the whole response, which is text; and a
    response holding both a generated_text and an output_text yields the
    generated_text. *)
Theorem normalize_generated_priority (r : value) (g o : string) :
  normalize_generated r = Spec.first_present_or_serialized r /\
  (r <> VUndefined ->
   Forall (fun c => Spec.present c = false) (Spec.candidates r) ->
   exists s, serialize r = Some s /\ normalize_generated r = VStr s) /\
  normalize_generated
    (VObj [("result", VObj [("output_text", VStr o)]); ("generated_text", VStr g)])
  = VStr g.
Proof.
  split; [|split].
  - unfold normalize_generated, Spec.first_present_or_serialized,
      Spec.candidates, Spec.present, nullish_coalesce. simpl.
    destruct (nullish (opt_member (opt_member r "result") "generated_text"));
      simpl; [|reflexivity].
    destruct (nullish (opt_member r "generated_text")); simpl; [|reflexivity].
    destruct (nullish (opt_member (opt_member r "result") "output_text"));
      reflexivity.
  - intros Hr Habs. destruct (serialize_defined r Hr) as [s Hs].
    exists s. split; [exact Hs|].
    unfold Spec.candidates, Spec.present in Habs.
    inversion_clear Habs as [|? ? H1 Habs']. inversion_clear Habs' as [|? ? H2 Habs''].
    inversion_clear Habs'' as [|? ? H3 _].
    apply negb_false_iff in H1, H2, H3.
    unfold normalize_generated.
    rewrite !nullish_coalesce_absent by assumption.
    unfold JSON_stringify. now rewrite Hs.
  - reflexivity.
Qed.

Lemma normalize_generated_priority_witness :
  let r := VObj [("status", VNum "200")] in
  r <> VUndefined /\
  Forall (fun c => Spec.present c = false) (Spec.candidates r) /\
  exists s, serialize r = Some s /\ normalize_generated r = VStr s.
Proof.
  intros r. split; [discriminate|]. split.
  - repeat constructor.
  - apply (normalize_generated_priority r "" "").
    + discriminate.
    + repeat constructor.
Defined.

Example normalize_only_output_text :
  normalize_generated (VObj [("result", VObj [("output_text", VStr "out")])])
  = VStr "out".
Proof. reflexivity. Qed.

Example normalize_end_to_end :
  normalize_generated (VObj [("generated_text", VStr "The sky exhibits a blue hue.")])
  = VStr "The sky exhibits a blue hue.".
Proof. reflexivity. Qed.

(** ** Recognition: the transcript *)

Lemma own_prop_string_opt_member (v : value) (k s : string) :
  own_prop v k = VStr s -> opt_member v k = VStr s.
Proof. destruct v; simpl; try discriminate. intros H. exact H. Qed.

Lemma top_transcript_carried (v : value) (seg : Spec.Segment) :
  Spec.carries_segment v seg ->
  top_transcript v = Ok (VStr (Spec.top_alternative seg)).
Proof.
  intros (props & -> & [(alts & Halts & Hall) | (Hnull & ->)]);
    unfold top_transcript; simpl.
  - rewrite Halts. destruct Hall as [|a s alts seg Ha _]; simpl.
    + reflexivity.
    + rewrite (own_prop_string_opt_member _ _ _ Ha).
      now rewrite logical_or_string.
  - destruct (assoc "alternatives" props); try discriminate; reflexivity.
Qed.

Lemma Array_map_carried (vs : list value) (segments : list Spec.Segment) :
  Forall2 Spec.carries_segment vs segments ->
  Array_map top_transcript vs =
  Ok (List.map (fun seg => VStr (Spec.top_alternative seg)) segments).
Proof.
  induction 1 as [|v seg vs segments Hv _ IH]; simpl.
  - reflexivity.
  - rewrite (top_transcript_carried _ _ Hv). simpl. now rewrite IH.
Qed.

Lemma Array_join_strings (sep : string) (segments : list Spec.Segment) :
  Array_join sep (List.map (fun seg => VStr (Spec.top_alternative seg)) segments)
  = Ok (String.concat sep (List.map Spec.top_alternative segments)).
Proof.
  unfold Array_join.
  assert (H : element_texts
                (List.map (fun seg => VStr (Spec.top_alternative seg)) segments)
              = Ok (List.map Spec.top_alternative segments)).
  { induction segments as [|seg segments IH]; simpl; [reflexivity|].
    now rewrite IH. }
  now rewrite H.
Qed.

Lemma encode_segment_carries (seg : Spec.Segment) :
  Spec.carries_segment (Spec.encode_segment seg) seg.
Proof.
  eexists. split; [reflexivity|]. left. eexists. split; [reflexivity|].
  induction seg as [|a seg IH]; constructor; [reflexivity|exact IH].
Qed.

Lemma encode_response_carries (segments : list Spec.Segment) :
  Forall2 Spec.carries_segment (List.map Spec.encode_segment segments) segments.
Proof.
  induction segments as [|seg segments IH]; constructor;
    [apply encode_segment_carries|exact IH].
Qed.

(** C3. When the recognition response holds a list of segments, the
    transcript is the top alternative's transcript of each segment (the
    empty string for a segment without alternatives), joined in order
    with one space and trimmed; for the empty list it is the empty
    string. *)
Theorem transcript_of_segments
    (sttResp : value) (vs : list value) (segments : list Spec.Segment) :
  opt_member (opt_member sttResp "result") "results" = VArr vs ->
  Forall2 Spec.carries_segment vs segments ->
  transcript_of sttResp = Ok (VStr (Spec.joined_transcript segments)) /\
  (segments = [] -> transcript_of sttResp = Ok (VStr "")).
Proof.
  intros Hres Hcarry.
  assert (Heq : transcript_of sttResp = Ok (VStr (Spec.joined_transcript segments))).
  { unfold transcript_of. rewrite Hres. simpl.
    rewrite (Array_map_carried _ _ Hcarry). simpl.
    rewrite Array_join_strings. simpl. rewrite logical_or_string. reflexivity. }
  split; [exact Heq|]. intros ->. exact Heq.
Qed.

Lemma transcript_of_segments_witness :
  let segments := [[{| Spec.transcript := "hello" |}]; [];
                   [{| Spec.transcript := "world " |}; {| Spec.transcript := "word" |}]] in
  let sttResp := Spec.encode_response segments in
  opt_member (opt_member sttResp "result") "results"
    = VArr (List.map Spec.encode_segment segments) /\
  Forall2 Spec.carries_segment (List.map Spec.encode_segment segments) segments /\
  transcript_of sttResp = Ok (VStr "hello  world").
Proof.
  intros segments sttResp. split; [reflexivity|]. split.
  - apply encode_response_carries.
  - apply (transcript_of_segments sttResp (List.map Spec.encode_segment segments) segments).
    + reflexivity.
    + apply encode_response_carries.
Defined.

Example transcript_hello_world :
  transcript_of (Spec.encode_response
    [[{| Spec.transcript := "hello" |}]; [{| Spec.transcript := "world" |}]])
  = Ok (VStr "hello world").
Proof. reflexivity. Qed.

Example transcript_no_segments :
  transcript_of (Spec.encode_response []) = Ok (VStr "").
Proof. reflexivity. Qed.

Example transcript_without_results :
  transcript_of (VObj [("result", VObj [])]) = Ok (VStr "").
Proof. reflexivity. Qed.

(** ** The three handlers, run on a fresh response *)

Lemma generate_handler_run env svc (body : value) (files : gset string) :
  generate_handler env svc body (initial files) =
  if nullish body
  then (Ok tt,
        {| trace := [EConsoleError "watsonx error:"
                       (error_detail
                          (TypeError ("Cannot destructure property 'prompt' of 'req.body' as it is " ++
                                      (if body is VNull then "null" else "undefined") ++ ".")))];
           disk := files;
           response := error_response "Granite generation failed" |})
  else
    match system_prompt (request_task body) (request_tone body) with
    | Throw e =>
        (Ok tt,
         {| trace := [EConsoleError "watsonx error:" (error_detail e)];
            disk := files;
            response := error_response "Granite generation failed" |})
    | Ok _ =>
        let p := generate_request env body in
        match wx_generateText svc p with
        | Ok r =>
            (Ok tt,
             {| trace := [EGenerateText p]; disk := files;
                response := {| statusCode := 200; headers := [];
                               sent := Some (JsonBody
                                         (VObj [("text", normalize_generated r)])) |} |})
        | Throw e =>
            (Ok tt,
             {| trace := [EGenerateText p;
                          EConsoleError "watsonx error:" (error_detail e)];
                disk := files;
                response := error_response "Granite generation failed" |})
        end
    end.
Proof.
  run_handler. destruct (nullish body); [reflexivity|].
  cbv [generate_request request_task request_tone]. cbv zeta.
  destruct (system_prompt _ _) as [system|e]; [|reflexivity].
  destruct (wx_generateText svc _); reflexivity.
Qed.

Lemma tts_handler_run env svc (body : value) (files : gset string) :
  tts_handler env svc body (initial files) =
  if nullish body
  then (Ok tt,
        {| trace := [EConsoleError "TTS error:"
                       (error_detail
                          (TypeError ("Cannot destructure property 'text' of 'req.body' as it is " ++
                                      (if body is VNull then "null" else "undefined") ++ ".")))];
           disk := files;
           response := error_response "TTS failed" |})
  else
    let p := tts_request env body in
    match tts_synthesize svc p with
    | Throw e =>
        (Ok tt,
         {| trace := [ESynthesize p; EConsoleError "TTS error:" (error_detail e)];
            disk := files;
            response := error_response "TTS failed" |})
    | Ok synth =>
        match tts_repairWavHeaderStream svc (result synth) with
        | Throw e =>
            (Ok tt,
             {| trace := [ESynthesize p; ERepairWavHeaderStream (result synth);
                          EConsoleError "TTS error:" (error_detail e)];
                disk := files;
                response := error_response "TTS failed" |})
        | Ok audio =>
            if header_value_ok svc (tts_format body)
            then (Ok tt,
                  {| trace := [ESynthesize p; ERepairWavHeaderStream (result synth)];
                     disk := files;
                     response := {| statusCode := 200;
                                    headers := [("Content-Type",
                                                 content_type_sent (tts_format body))];
                                    sent := Some (RawBody audio) |} |})
            else (Ok tt,
                  {| trace := [ESynthesize p; ERepairWavHeaderStream (result synth);
                               EConsoleError "TTS error:"
                                 (error_detail
                                    (TypeError "Invalid value for header Content-Type"))];
                     disk := files;
                     response := error_response "TTS failed" |})
        end
    end.
Proof.
  run_handler. destruct (nullish body); [reflexivity|].
  cbv [tts_request tts_format]. cbv zeta.
  destruct (tts_synthesize svc _) as [synth|e]; [|reflexivity].
  run_handler.
  destruct (tts_repairWavHeaderStream svc _) as [audio|e]; [|reflexivity].
  destruct (header_value_ok svc _); [|reflexivity].
  run_handler. cbv [content_type_sent]. cbn [assoc String.eqb Ascii.eqb Bool.eqb].
  destruct (truthy _); reflexivity.
Qed.

Lemma stt_handler_run svc (file : option UploadedFile) (files : gset string) :
  stt_handler svc file (initial files) =
  match file with
  | None =>
      (Ok tt,
       {| trace := [EConsoleError "STT error:" (error_detail missing_file_error)];
          disk := files;
          response := error_response "STT failed" |})
  | Some f =>
      let p := stt_request f in
      match stt_recognize svc p with
      | Throw e =>
          (Ok tt,
           {| trace := [ECreateReadStream (path f); ERecognize p;
                        EConsoleError "STT error:" (error_detail e)];
              disk := files;
              response := error_response "STT failed" |})
      | Ok sttResp =>
          match transcript_of sttResp with
          | Ok transcript =>
              (Ok tt,
               {| trace := [ECreateReadStream (path f); ERecognize p; EUnlink (path f)];
                  disk := files ∖ {[ path f ]};
                  response := {| statusCode := 200; headers := [];
                                 sent := Some (JsonBody
                                           (VObj [("transcript", transcript)])) |} |})
          | Throw e =>
              (Ok tt,
               {| trace := [ECreateReadStream (path f); ERecognize p; EUnlink (path f);
                            EConsoleError "STT error:" (error_detail e)];
                  disk := files ∖ {[ path f ]};
                  response := error_response "STT failed" |})
          end
      end
  end.
Proof.
  run_handler. destruct file as [f|]; [|reflexivity].
  cbv [stt_request]. cbv zeta.
  destruct (stt_recognize svc _) as [sttResp|e]; [|reflexivity].
  destruct (transcript_of sttResp); reflexivity.
Qed.

Example generate_end_to_end :
  response (final (generate_handler ∅ stub_services
                     (VObj [("prompt", VStr "The sky is blue.");
                            ("task", VStr "rewrite"); ("tone", VStr "Formal")])) ∅)
  = {| statusCode := 200; headers := [];
       sent := Some (JsonBody (VObj [("text", VStr "The sky exhibits a blue hue.")])) |}.
Proof. reflexivity. Qed.

(** ** Recognition: the uploaded file *)

(** When recognition and the transcript succeed, or the transcript
    fails after recognition, the unlink has been issued and the file is
    gone. *)
Lemma stt_recognized_unlinks svc (f : UploadedFile) (files : gset string)
    (sttResp : value) :
  stt_recognize svc (stt_request f) = Ok sttResp ->
  In (EUnlink (path f)) (trace (final (stt_handler svc (Some f)) files)) /\
  path f ∉ disk (final (stt_handler svc (Some f)) files).
Proof.
  intros Hrec. unfold final. rewrite stt_handler_run. cbv zeta. rewrite Hrec.
  destruct (transcript_of sttResp); cbn [snd trace disk];
    (split; [do 2 right; left; reflexivity |]);
    rewrite elem_of_difference, elem_of_singleton; intros [_ Hne]; now apply Hne.
Qed.

(** C1 (defect). When the recognition provider throws, the handler
    goes to its catch block, which issues no unlink: the uploaded file
    is still on disk when the request has been answered. *)
Theorem stt_failure_leaves_upload svc (f : UploadedFile) (files : gset string)
    (e : value) :
  stt_recognize svc (stt_request f) = Throw e ->
  path f ∈ files ->
  response (final (stt_handler svc (Some f)) files) = error_response "STT failed" /\
  (forall p, ~ In (EUnlink p) (trace (final (stt_handler svc (Some f)) files))) /\
  path f ∈ disk (final (stt_handler svc (Some f)) files).
Proof.
  intros Hrec Hin. unfold final. rewrite stt_handler_run. cbv zeta. rewrite Hrec.
  cbn [snd trace disk response]. split; [reflexivity|]. split; [|exact Hin].
  intros p [H|[H|[H|[]]]]; discriminate H.
Qed.

Lemma stt_failure_leaves_upload_witness :
  let f := {| path := "uploads/5f1c"; mimetype := "audio/webm" |} in
  let svc := failing_services upstream_error in
  let files : gset string := {[ "uploads/5f1c" ]} in
  stt_recognize svc (stt_request f) = Throw upstream_error /\
  path f ∈ files /\
  path f ∈ disk (final (stt_handler svc (Some f)) files).
Proof.
  intros f svc files. split; [reflexivity|]. split.
  - apply elem_of_singleton. reflexivity.
  - apply (stt_failure_leaves_upload svc f files upstream_error).
    + reflexivity.
    + apply elem_of_singleton. reflexivity.
Defined.

(** ** Error mapping *)

(** C4. On each of the three endpoints, whenever the handler body
    throws (in particular whenever a provider call throws), the
    response is status 500 with the endpoint's fixed JSON error body,
    which does not depend on the thrown value; the thrown value's
    detail goes to the server log only. *)
Theorem error_collapse env svc (files : gset string) (e : value) (s' : State) :
  (forall body,
     generate_body env svc body (initial files) = (Throw e, s') ->
     response (final (generate_handler env svc body) files)
       = error_response "Granite generation failed" /\
     trace (final (generate_handler env svc body) files)
       = (trace s' ++ [EConsoleError "watsonx error:" (error_detail e)])%list) /\
  (forall body,
     tts_body env svc body (initial files) = (Throw e, s') ->
     response (final (tts_handler env svc body) files)
       = error_response "TTS failed" /\
     trace (final (tts_handler env svc body) files)
       = (trace s' ++ [EConsoleError "TTS error:" (error_detail e)])%list) /\
  (forall file,
     stt_body svc file (initial files) = (Throw e, s') ->
     response (final (stt_handler svc file) files)
       = error_response "STT failed" /\
     trace (final (stt_handler svc file) files)
       = (trace s' ++ [EConsoleError "STT error:" (error_detail e)])%list) /\
  (forall body,
     nullish body = false ->
     wx_generateText svc (generate_request env body) = Throw e ->
     response (final (generate_handler env svc body) files)
       = error_response "Granite generation failed") /\
  (forall body,
     nullish body = false ->
     tts_synthesize svc (tts_request env body) = Throw e ->
     response (final (tts_handler env svc body) files)
       = error_response "TTS failed") /\
  (forall body synth,
     nullish body = false ->
     tts_synthesize svc (tts_request env body) = Ok synth ->
     tts_repairWavHeaderStream svc (result synth) = Throw e ->
     response (final (tts_handler env svc body) files)
       = error_response "TTS failed") /\
  (forall f,
     stt_recognize svc (stt_request f) = Throw e ->
     response (final (stt_handler svc (Some f)) files)
       = error_response "STT failed").
Proof.
  repeat apply conj.
  - intros body Hthrow.
    unfold final, generate_handler, try_catch. rewrite Hthrow.
    revert Hthrow. run_handler.
    destruct (nullish body); [intros [= <- <-]; split; reflexivity|].
    destruct (system_prompt _ _) as [system|e0];
      [|intros [= <- <-]; split; reflexivity].
    destruct (wx_generateText svc _); intros [= <- <-]; split; reflexivity.
  - intros body Hthrow.
    unfold final, tts_handler, try_catch. rewrite Hthrow.
    revert Hthrow. run_handler.
    destruct (nullish body); [intros [= <- <-]; split; reflexivity|].
    destruct (tts_synthesize svc _) as [synth|e1];
      [|intros [= <- <-]; split; reflexivity].
    run_handler.
    destruct (tts_repairWavHeaderStream svc _) as [audio|e2];
      [|intros [= <- <-]; split; reflexivity].
    destruct (header_value_ok svc _); intros [= <- <-]; split; reflexivity.
  - intros file Hthrow.
    unfold final, stt_handler, try_catch. rewrite Hthrow.
    revert Hthrow. run_handler.
    destruct file as [f|]; [|intros [= <- <-]; split; reflexivity].
    destruct (stt_recognize svc _) as [sttResp|e1];
      [|intros [= <- <-]; split; reflexivity].
    destruct (transcript_of sttResp); intros [= <- <-]; split; reflexivity.
  - intros body Hbody Hthrow. unfold final.
    rewrite generate_handler_run, Hbody.
    destruct (system_prompt _ _); [|reflexivity]. cbv zeta. now rewrite Hthrow.
  - intros body Hbody Hthrow. unfold final.
    rewrite tts_handler_run, Hbody. cbv zeta. now rewrite Hthrow.
  - intros body synth Hbody Hsynth Hthrow. unfold final.
    rewrite tts_handler_run, Hbody. cbv zeta. now rewrite Hsynth, Hthrow.
  - intros f Hthrow. unfold final.
    rewrite stt_handler_run. cbv zeta. now rewrite Hthrow.
Qed.

Lemma error_collapse_witness :
  let env : gmap string string := ∅ in
  let files : gset string := ∅ in
  let body := VObj [("prompt", VStr "The sky is blue.")] in
  let svc := failing_services upstream_error in
  let s' := {| trace := [EGenerateText (generate_request env body)];
               disk := files; response := fresh_response |} in
  generate_body env svc body (initial files) = (Throw upstream_error, s') /\
  response (final (generate_handler env svc body) files)
    = error_response "Granite generation failed" /\
  trace (final (generate_handler env svc body) files)
    = [EGenerateText (generate_request env body);
       EConsoleError "watsonx error:" (VObj [("error", VStr "invalid api key")])].
Proof.
  intros env files body svc s'. split; [reflexivity|].
  destruct (error_collapse env svc files upstream_error s') as (Hgenerate & _).
  apply (Hgenerate body). reflexivity.
Defined.

(** ** Generation: the request sent upstream *)

(** C5 (as amended). For a generation request with task [t] and tone
    [v], the first thing the handler does is to call the provider with
    the system prompt
    "You are EchoVerse's writer. Task: t." LINE BREAK
    "Tone: v. Keep meaning intact. Output only the transformed text.",
    which holds [t] and [v] verbatim and travels in
    [context.system_prompt], while [input] is the request's prompt as
    it came. *)
Theorem system_prompt_sent env svc (body : value) (t v : string)
    (files : gset string) :
  own_prop body "task" = VStr t ->
  own_prop body "tone" = VStr v ->
  exists p rest,
    trace (final (generate_handler env svc body) files) = EGenerateText p :: rest /\
    context_system_prompt p =
      "You are EchoVerse's writer. Task: " ++ t ++ "." ++ LF ++
      "Tone: " ++ v ++ ". Keep meaning intact. Output only the transformed text." /\
    (exists a b c, context_system_prompt p = a ++ t ++ b ++ v ++ c) /\
    input p = own_prop body "prompt".
Proof.
  intros Htask Htone.
  assert (Hbody : nullish body = false) by (destruct body; simpl in *; congruence).
  assert (Hprompt : system_prompt (request_task body) (request_tone body) =
                    Ok ("You are EchoVerse's writer. Task: " ++ t ++ "." ++ LF ++
                        "Tone: " ++ v ++
                        ". Keep meaning intact. Output only the transformed text.")).
  { unfold request_task, request_tone. rewrite Htask, Htone. reflexivity. }
  assert (Hsys : context_system_prompt (generate_request env body) =
                 "You are EchoVerse's writer. Task: " ++ t ++ "." ++ LF ++
                 "Tone: " ++ v ++
                 ". Keep meaning intact. Output only the transformed text.").
  { cbn [generate_request generateParams context_system_prompt].
    now rewrite Hprompt. }
  exists (generate_request env body).
  unfold final. rewrite generate_handler_run, Hbody, Hprompt. cbv zeta.
  destruct (wx_generateText svc _); cbn [snd trace]; eexists;
    (split; [reflexivity|]); (split; [exact Hsys|]);
    (split; [|reflexivity]); rewrite Hsys;
    exists "You are EchoVerse's writer. Task: ", ("." ++ LF ++ "Tone: "),
           ". Keep meaning intact. Output only the transformed text.";
    reflexivity.
Qed.

Lemma system_prompt_sent_witness :
  let env : gmap string string := ∅ in
  let body := VObj [("prompt", VStr "The sky is blue."); ("task", VStr "rewrite");
                    ("tone", VStr "Formal")] in
  own_prop body "task" = VStr "rewrite" /\
  own_prop body "tone" = VStr "Formal" /\
  exists p rest,
    trace (final (generate_handler env stub_services body) ∅) = EGenerateText p :: rest /\
    context_system_prompt p =
      "You are EchoVerse's writer. Task: rewrite." ++ LF ++
      "Tone: Formal. Keep meaning intact. Output only the transformed text." /\
    (exists a b c, context_system_prompt p = a ++ "rewrite" ++ b ++ "Formal" ++ c) /\
    input p = VStr "The sky is blue.".
Proof.
  intros env body. split; [reflexivity|]. split; [reflexivity|].
  apply (system_prompt_sent env stub_services body "rewrite" "Formal" ∅);
    reflexivity.
Defined.

(** C5 (as stated, refuted). The system prompt sent for task
    "rewrite" and tone "Formal" is not the specification's
    "You are a writer. Task: rewrite. Tone: Formal. ..." text. *)
Lemma system_prompt_differs_from_spec :
  let env : gmap string string := ∅ in
  let body := VObj [("prompt", VStr "The sky is blue."); ("task", VStr "rewrite");
                    ("tone", VStr "Formal")] in
  trace (final (generate_handler env stub_services body) ∅)
    = [EGenerateText (generate_request env body)] /\
  context_system_prompt (generate_request env body)
    <> Spec.preamble "rewrite" "Formal".
Proof.
  intros env body. split; [reflexivity|].
  cbn [generate_request generateParams context_system_prompt]. simpl. discriminate.
Qed.

(** C9. Every call the generation handler makes to the provider
    carries the same decoding parameters: greedy decoding, at most 400
    new tokens, no stop sequence, temperature 0.2; whatever the request
    body holds. *)
Theorem decoding_parameters_fixed env svc (body : value) (files : gset string)
    (p : GenerateTextParams) :
  In (EGenerateText p) (trace (final (generate_handler env svc body) files)) ->
  parameters p = {| decoding_method := "greedy"; max_new_tokens := 400;
                    stop_sequences := []; temperature := 0.2%Q |}.
Proof.
  unfold final. rewrite generate_handler_run.
  destruct (nullish body).
  - intros [H|[]]. discriminate H.
  - destruct (system_prompt _ _); [|intros [H|[]]; discriminate H].
    cbv zeta. destruct (wx_generateText svc _); cbn [snd trace].
    + intros [[= <-]|[]]. reflexivity.
    + intros [[= <-]|[H|[]]]; [reflexivity|discriminate H].
Qed.

Lemma decoding_parameters_fixed_witness :
  let env : gmap string string := ∅ in
  let body := VObj [("prompt", VStr "The sky is blue.");
                    ("parameters", VObj [("decoding_method", VStr "sample");
                                         ("max_new_tokens", VNum "9000");
                                         ("temperature", VNum "1")]);
                    ("temperature", VNum "1"); ("max_new_tokens", VNum "9000")] in
  In (EGenerateText (generate_request env body))
     (trace (final (generate_handler env stub_services body) ∅)) /\
  parameters (generate_request env body)
    = {| decoding_method := "greedy"; max_new_tokens := 400;
         stop_sequences := []; temperature := 0.2%Q |}.
Proof.
  intros env body. split; [left; reflexivity|].
  apply (decoding_parameters_fixed env stub_services body ∅).
  left. reflexivity.
Defined.

(** ** Validation of the required field *)

(** C6 (as amended). No handler checks its required field for
    presence or emptiness. The generation provider is called exactly
    when the request body is there and the task and the tone can be
    written into the system prompt (neither holds an object with an own
    [toString] property); its input is then the prompt as the body has
    it, absent and empty included. The synthesis provider is called
    exactly when the body is there, with the text as the body has it.
    The recogniser is called exactly when a file was uploaded. A
    request that reaches no provider call is answered with the
    endpoint's status-500 error. *)
Theorem required_field_not_validated env svc (files : gset string) :
  (forall body,
     ((exists p, In (EGenerateText p)
                    (trace (final (generate_handler env svc body) files))) <->
      nullish body = false /\
      convertible (request_task body) = true /\
      convertible (request_tone body) = true) /\
     (nullish body = false ->
      convertible (request_task body) = true ->
      convertible (request_tone body) = true ->
      input (generate_request env body) = own_prop body "prompt" /\
      exists rest, trace (final (generate_handler env svc body) files)
                   = EGenerateText (generate_request env body) :: rest) /\
     ((forall p, ~ In (EGenerateText p)
                      (trace (final (generate_handler env svc body) files))) ->
      response (final (generate_handler env svc body) files)
        = error_response "Granite generation failed")) /\
  (forall body,
     ((exists p, In (ESynthesize p)
                    (trace (final (tts_handler env svc body) files))) <->
      nullish body = false) /\
     (nullish body = false ->
      text (tts_request env body) = own_prop body "text" /\
      exists rest, trace (final (tts_handler env svc body) files)
                   = ESynthesize (tts_request env body) :: rest) /\
     ((forall p, ~ In (ESynthesize p)
                      (trace (final (tts_handler env svc body) files))) ->
      response (final (tts_handler env svc body) files)
        = error_response "TTS failed")) /\
  (forall file,
     ((exists p, In (ERecognize p)
                    (trace (final (stt_handler svc file) files))) <->
      exists f, file = Some f) /\
     (forall f, file = Some f ->
      exists rest, trace (final (stt_handler svc file) files)
                   = ECreateReadStream (path f) :: ERecognize (stt_request f) :: rest) /\
     ((forall p, ~ In (ERecognize p)
                      (trace (final (stt_handler svc file) files))) ->
      response (final (stt_handler svc file) files)
        = error_response "STT failed")).
Proof.
  repeat apply conj.
  - intros body. unfold final. rewrite generate_handler_run.
    pose proof (system_prompt_ok (request_task body) (request_tone body)) as Hok.
    destruct (nullish body).
    { repeat apply conj.
      - intros [p [H|[]]]. discriminate H.
      - intros [H _]. discriminate H.
      - discriminate.
      - reflexivity. }
    destruct (system_prompt _ _) as [system|e].
    + assert (Hconv : convertible (request_task body) = true /\
                      convertible (request_tone body) = true)
        by (apply Hok; now eexists).
      cbv zeta. repeat apply conj.
      * intros _. split; [reflexivity|exact Hconv].
      * intros _. exists (generate_request env body).
        destruct (wx_generateText svc _); left; reflexivity.
      * intros _ _ _. split; [reflexivity|].
        destruct (wx_generateText svc _); eexists; reflexivity.
      * intros Hnone. exfalso. apply (Hnone (generate_request env body)).
        destruct (wx_generateText svc _); left; reflexivity.
    + repeat apply conj.
      * intros [p [H|[]]]. discriminate H.
      * intros [_ Hconv]. apply Hok in Hconv as [system H]. discriminate H.
      * intros _ Htask Htone.
        destruct (proj2 Hok (conj Htask Htone)) as [system H]. discriminate H.
      * reflexivity.
  - intros body.
    assert (Hfirst : nullish body = false ->
              exists rest, trace (final (tts_handler env svc body) files)
                           = ESynthesize (tts_request env body) :: rest).
    { intros Hbody. unfold final. rewrite tts_handler_run, Hbody. cbv zeta.
      destruct (tts_synthesize svc _) as [synth|]; [|eexists; reflexivity].
      destruct (tts_repairWavHeaderStream svc _); [|eexists; reflexivity].
      destruct (header_value_ok svc _); eexists; reflexivity. }
    destruct (nullish body) eqn:Hbody.
    { unfold final. rewrite tts_handler_run, Hbody. repeat apply conj.
      - intros [p [H|[]]]. discriminate H.
      - discriminate.
      - discriminate.
      - reflexivity. }
    destruct (Hfirst eq_refl) as [rest Hrest]. repeat apply conj.
    + intros _. reflexivity.
    + intros _. exists (tts_request env body). rewrite Hrest. left. reflexivity.
    + intros _. split; [reflexivity|]. exists rest. exact Hrest.
    + intros Hnone. exfalso. apply (Hnone (tts_request env body)).
      rewrite Hrest. left. reflexivity.
  - intros file. unfold final. rewrite stt_handler_run.
    destruct file as [f|].
    + cbv zeta. repeat apply conj.
      * intros _. now exists f.
      * intros _. exists (stt_request f).
        destruct (stt_recognize svc _) as [sttResp|];
          [destruct (transcript_of sttResp)|]; right; left; reflexivity.
      * intros f' [= <-].
        destruct (stt_recognize svc _) as [sttResp|];
          [destruct (transcript_of sttResp)|]; eexists; reflexivity.
      * intros Hnone. exfalso. apply (Hnone (stt_request f)).
        destruct (stt_recognize svc _) as [sttResp|];
          [destruct (transcript_of sttResp)|]; right; left; reflexivity.
    + repeat apply conj.
      * intros [p [H|[]]]. discriminate H.
      * intros [f H]. discriminate H.
      * intros f H. discriminate H.
      * reflexivity.
Qed.

Lemma required_field_not_validated_witness :
  let env : gmap string string := ∅ in
  let body := VObj [("prompt", VStr "")] in
  nullish body = false /\
  convertible (request_task body) = true /\
  convertible (request_tone body) = true /\
  input (generate_request env body) = VStr "" /\
  exists rest, trace (final (generate_handler env stub_services body) ∅)
               = EGenerateText (generate_request env body) :: rest.
Proof.
  intros env body. do 3 (split; [reflexivity|]).
  destruct (required_field_not_validated env stub_services ∅) as (Hgenerate & _).
  apply (proj1 (proj2 (Hgenerate body))); reflexivity.
Defined.

(** C6 (as stated, refuted). A generation request without any prompt
    is not rejected: the provider is called, with an [undefined] input,
    and the caller gets the status-200 answer. *)
Lemma generate_without_prompt_calls_provider :
  let env : gmap string string := ∅ in
  let body := VObj [("tone", VStr "Formal")] in
  let s := final (generate_handler env stub_services body) ∅ in
  own_prop body "prompt" = VUndefined /\
  trace s = [EGenerateText (generate_request env body)] /\
  input (generate_request env body) = VUndefined /\
  response s = {| statusCode := 200; headers := [];
                  sent := Some (JsonBody
                            (VObj [("text", VStr "The sky exhibits a blue hue.")])) |}.
Proof. intros env body s. repeat split. Qed.

(** ** Synthesis *)

(** C7. Whatever the requested format, audio bytes reach the caller
    only as the result of the WAV-header repair applied to the
    provider's result stream: a response that carries bytes comes from a
    run that called synthesize, then the repair on its result, and the
    bytes sent are what the repair returned. *)
Theorem tts_repair_always_applied env svc (body : value) (files : gset string)
    (audio : Buffer) :
  sent (response (final (tts_handler env svc body) files)) = Some (RawBody audio) ->
  exists synth,
    tts_synthesize svc (tts_request env body) = Ok synth /\
    tts_repairWavHeaderStream svc (result synth) = Ok audio /\
    trace (final (tts_handler env svc body) files)
      = [ESynthesize (tts_request env body); ERepairWavHeaderStream (result synth)].
Proof.
  unfold final. rewrite tts_handler_run.
  destruct (nullish body); [discriminate|]. cbv zeta.
  destruct (tts_synthesize svc _) as [synth|] eqn:Hsynth; [|discriminate].
  destruct (tts_repairWavHeaderStream svc _) as [audio'|] eqn:Hrepair;
    [|discriminate].
  destruct (header_value_ok svc _); [|discriminate].
  cbn [snd response sent trace]. intros [= ->]. exists synth.
  split; [reflexivity|]. split; [exact Hrepair|reflexivity].
Qed.

Lemma tts_repair_always_applied_witness :
  let env : gmap string string := ∅ in
  let body := VObj [("text", VStr "Hello"); ("format", VStr "audio/ogg;codecs=opus")] in
  sent (response (final (tts_handler env stub_services body) ∅))
    = Some (RawBody [Byte.x49; Byte.x44]) /\
  exists synth,
    tts_synthesize stub_services (tts_request env body) = Ok synth /\
    tts_repairWavHeaderStream stub_services (result synth) = Ok [Byte.x49; Byte.x44] /\
    trace (final (tts_handler env stub_services body) ∅)
      = [ESynthesize (tts_request env body); ERepairWavHeaderStream (result synth)].
Proof.
  intros env body. split; [reflexivity|].
  apply (tts_repair_always_applied env stub_services body ∅). reflexivity.
Defined.

(** C8 (as amended). For a synthesis request with a body: an omitted
    voice is the configuration's TTS_VOICE when that is set and not
    empty, and the fixed "en-US_AllisonV3Voice" otherwise; an omitted
    format is the fixed "audio/mp3", whatever the configuration; and a
    response that carries audio has the Content-Type header set to the
    (possibly defaulted) format, the one sent to the provider, when
    that value is truthy (any non-empty string, the default among
    them), and to "application/octet-stream" when it is a value that is
    not truthy and that [res.setHeader] let pass (the empty string,
    [null]): [res.send] replaces such a header. *)
Theorem tts_defaults_and_content_type env svc (body : value)
    (files : gset string) :
  nullish body = false ->
  let p := tts_request env body in
  let s := final (tts_handler env svc body) files in
  (exists rest, trace s = ESynthesize p :: rest) /\
  (own_prop body "voice" = VUndefined ->
   voice p = match env !! "TTS_VOICE" with
             | Some configured =>
                 if String.eqb configured "" then VStr "en-US_AllisonV3Voice"
                 else VStr configured
             | None => VStr "en-US_AllisonV3Voice"
             end) /\
  (own_prop body "voice" <> VUndefined -> voice p = own_prop body "voice") /\
  (own_prop body "format" = VUndefined -> accept p = VStr "audio/mp3") /\
  (own_prop body "format" <> VUndefined -> accept p = own_prop body "format") /\
  (forall audio, sent (response s) = Some (RawBody audio) ->
     headers (response s)
     = [("Content-Type",
         if truthy (accept p) then accept p
         else VStr "application/octet-stream")]) /\
  (forall audio format,
     sent (response s) = Some (RawBody audio) ->
     accept p = VStr format -> format <> "" ->
     headers (response s) = [("Content-Type", VStr format)]).
Proof.
  intros Hbody p s.
  assert (Hheader : forall audio, sent (response s) = Some (RawBody audio) ->
            headers (response s)
            = [("Content-Type",
                if truthy (accept p) then accept p
                else VStr "application/octet-stream")]).
  { intros audio. subst s p. unfold final. rewrite tts_handler_run, Hbody.
    cbv zeta.
    destruct (tts_synthesize svc _) as [synth|]; [|discriminate].
    destruct (tts_repairWavHeaderStream svc _); [|discriminate].
    destruct (header_value_ok svc _); [|discriminate]. reflexivity. }
  repeat apply conj.
  - subst s p. unfold final. rewrite tts_handler_run, Hbody. cbv zeta.
    destruct (tts_synthesize svc _) as [synth|]; [|eexists; reflexivity].
    destruct (tts_repairWavHeaderStream svc _); [|eexists; reflexivity].
    destruct (header_value_ok svc _); eexists; reflexivity.
  - intros Hvoice. subst p. cbn [tts_request voice]. rewrite Hvoice.
    cbn [with_default]. unfold process_env, logical_or.
    destruct (env !! "TTS_VOICE") as [configured|]; [|reflexivity].
    cbn [truthy]. destruct (String.eqb configured ""); reflexivity.
  - intros Hvoice. subst p. cbn [tts_request voice].
    destruct (own_prop body "voice"); try reflexivity. congruence.
  - intros Hformat. subst p. cbn [tts_request accept]. unfold tts_format.
    now rewrite Hformat.
  - intros Hformat. subst p. cbn [tts_request accept]. unfold tts_format.
    destruct (own_prop body "format"); try reflexivity. congruence.
  - exact Hheader.
  - intros audio format Hsent Hformat Hne. rewrite (Hheader audio Hsent), Hformat.
    cbn [truthy]. destruct (String.eqb_spec format ""); [contradiction|reflexivity].
Qed.

Lemma tts_defaults_and_content_type_witness :
  let env : gmap string string := {[ "TTS_VOICE" := "en-GB_KateV3Voice" ]} in
  let body := VObj [("text", VStr "Hello")] in
  let p := tts_request env body in
  let s := final (tts_handler env stub_services body) ∅ in
  nullish body = false /\
  own_prop body "voice" = VUndefined /\
  own_prop body "format" = VUndefined /\
  sent (response s) = Some (RawBody [Byte.x49; Byte.x44]) /\
  voice p = VStr "en-GB_KateV3Voice" /\
  accept p = VStr "audio/mp3" /\
  headers (response s) = [("Content-Type", VStr "audio/mp3")].
Proof.
  intros env body p s.
  destruct (tts_defaults_and_content_type env stub_services body ∅ eq_refl)
    as (_ & Hvoice & _ & Hformat & _ & Hheader & _).
  split; [reflexivity|]. split; [reflexivity|]. split; [reflexivity|].
  split; [reflexivity|]. split; [|split].
  - exact (Hvoice eq_refl).
  - exact (Hformat eq_refl).
  - exact (Hheader [Byte.x49; Byte.x44] eq_refl).
Defined.

Example tts_empty_format_leaves_as_octet_stream :
  response (final (tts_handler ∅ stub_services
                     (VObj [("text", VStr "Hello"); ("format", VStr "")])) ∅)
  = {| statusCode := 200;
       headers := [("Content-Type", VStr "application/octet-stream")];
       sent := Some (RawBody [Byte.x49; Byte.x44]) |}.
Proof. reflexivity. Qed.

(** C8 (as stated, refuted). With a configuration that even holds a
    format of its own, a synthesis request without format is sent with
    "audio/mp3", which is no value of the configuration. *)
Lemma tts_default_format_not_configured :
  let env : gmap string string :=
    <["TTS_FORMAT" := "audio/wav"]> {[ "TTS_VOICE" := "en-GB_KateV3Voice" ]} in
  let body := VObj [("text", VStr "Hello")] in
  let s := final (tts_handler env stub_services body) ∅ in
  own_prop body "format" = VUndefined /\
  (exists p rest, trace s = ESynthesize p :: rest /\ accept p = VStr "audio/mp3") /\
  headers (response s) = [("Content-Type", VStr "audio/mp3")] /\
  forall name, process_env env name <> VStr "audio/mp3".
Proof.
  intros env body s. split; [reflexivity|]. split; [|split].
  - eexists. eexists. split; reflexivity.
  - reflexivity.
  - intros name. unfold process_env.
    destruct (env !! name) as [configured|] eqn:Hname; [|discriminate].
    subst env. apply lookup_insert_Some in Hname as [[_ <-]|[_ Hname]].
    + discriminate.
    + apply lookup_singleton_Some in Hname as [_ <-]. discriminate.
Qed.

(** ** Recognition without an uploaded file *)

(** C10. A transcription request without an uploaded file makes the
    handler throw at its first statement: nothing is sent to the
    recognition provider, only the error is logged, and the caller gets
    status 500 with the body of a recognition failure, the very
    response an upstream failure produces. *)
Theorem stt_missing_file svc (files : gset string) (f : UploadedFile) (e : value) :
  let s := final (stt_handler svc None) files in
  stt_body svc None (initial files) = (Throw missing_file_error, initial files) /\
  trace s = [EConsoleError "STT error:" missing_file_error] /\
  (forall p, ~ In (ERecognize p) (trace s)) /\
  response s = error_response "STT failed" /\
  statusCode (response s) = 500 /\
  (stt_recognize svc (stt_request f) = Throw e ->
   response (final (stt_handler svc (Some f)) files) = response s).
Proof.
  intros s. subst s. unfold final. rewrite !stt_handler_run.
  split; [reflexivity|]. split; [reflexivity|]. split.
  { intros p [H|[]]. discriminate H. }
  split; [reflexivity|]. split; [reflexivity|].
  intros Hthrow. cbv zeta. now rewrite Hthrow.
Qed.

Lemma stt_missing_file_witness :
  let f := {| path := "uploads/5f1c"; mimetype := "" |} in
  let svc := failing_services upstream_error in
  stt_recognize svc (stt_request f) = Throw upstream_error /\
  response (final (stt_handler svc (Some f)) ∅)
    = response (final (stt_handler svc None) ∅).
Proof.
  intros f svc. split; [reflexivity|].
  apply (stt_missing_file svc ∅ f upstream_error). reflexivity.
Defined.

(** * Further properties of the handlers *)

(** ** Trimming *)

Lemma trimStart_length (s : string) :
  (String.length (trimStart s) <= String.length s)%nat.
Proof.
  induction s as [|c s IH]; simpl; [lia|].
  destruct (is_white_space c); simpl; lia.
Qed.

Lemma trimStart_fixed_head (c : ascii) (s : string) :
  trimStart (String c s) = String c s -> is_white_space c = false.
Proof.
  simpl. destruct (is_white_space c); [|reflexivity].
  intros H. pose proof (trimStart_length s) as Hlen.
  rewrite H in Hlen. simpl in Hlen. lia.
Qed.

Lemma trimStart_idempotent (s : string) :
  trimStart (trimStart s) = trimStart s.
Proof.
  induction s as [|c s IH]; simpl; [reflexivity|].
  destruct (is_white_space c) eqn:Hc; [exact IH|]. simpl. now rewrite Hc.
Qed.

Lemma trimEnd_cons (c : ascii) (s : string) :
  trimEnd (String c s) =
  match trimEnd s with
  | EmptyString => if is_white_space c then EmptyString else String c EmptyString
  | t => String c t
  end.
Proof. reflexivity. Qed.

Lemma trimEnd_idempotent (s : string) : trimEnd (trimEnd s) = trimEnd s.
Proof.
  induction s as [|c s IH]; [reflexivity|]. rewrite trimEnd_cons.
  destruct (trimEnd s) as [|d u] eqn:Hu.
  - destruct (is_white_space c) eqn:Hc; [reflexivity|].
    rewrite trimEnd_cons. simpl. now rewrite Hc.
  - rewrite trimEnd_cons, IH. reflexivity.
Qed.

Lemma trimEnd_keeps_head (s : string) :
  trimStart s = s -> trimStart (trimEnd s) = trimEnd s.
Proof.
  destruct s as [|c s]; [reflexivity|]. intros H.
  apply trimStart_fixed_head in H. rewrite trimEnd_cons.
  destruct (trimEnd s); rewrite ?H; simpl; now rewrite H.
Qed.

Lemma trim_no_outer_white_space (s : string) :
  trimStart (trim s) = trim s /\ trimEnd (trim s) = trim s.
Proof.
  unfold trim. split.
  - apply trimEnd_keeps_head, trimStart_idempotent.
  - apply trimEnd_idempotent.
Qed.

(** ** Recognition: when the transcript can and cannot be built *)

Lemma top_transcript_throws_iff (v : value) :
  (exists e, top_transcript v = Throw e) <-> nullish v = true.
Proof.
  unfold top_transcript, member. destruct (nullish v); simpl; split.
  - reflexivity.
  - intros _. eexists. reflexivity.
  - intros [e H]. discriminate H.
  - discriminate.
Qed.

Lemma Array_map_top_transcript_cases (segments : list value) :
  (exists tokens, Array_map top_transcript segments = Ok tokens /\
                  Forall (fun v => nullish v = false) segments) \/
  (exists e, Array_map top_transcript segments = Throw e /\
             Exists (fun v => nullish v = true) segments).
Proof.
  induction segments as [|v segments IH]; simpl.
  - left. eexists. split; [reflexivity|constructor].
  - destruct (top_transcript v) as [token|e] eqn:Htop; simpl.
    + assert (Hv : nullish v = false).
      { destruct (nullish v) eqn:Hv; [|reflexivity].
        apply top_transcript_throws_iff in Hv as [e He]. congruence. }
      destruct IH as [(tokens & -> & Hall) | (e & -> & Hex)]; simpl.
      * left. eexists. split; [reflexivity|]. now constructor.
      * right. eexists. split; [reflexivity|]. now apply Exists_cons_tl.
    + right. eexists. split; [reflexivity|]. apply Exists_cons_hd.
      apply top_transcript_throws_iff. now exists e.
Qed.

Lemma Array_map_Forall2 (f : value -> outcome value) (items results : list value) :
  Array_map f items = Ok results ->
  Forall2 (fun v r => f v = Ok r) items results.
Proof.
  revert results. induction items as [|x items IH]; simpl; intros results.
  - intros [= <-]. constructor.
  - destruct (f x) as [y|] eqn:Hx; simpl; [|discriminate].
    destruct (Array_map f items) as [ys|]; simpl; [|discriminate].
    intros [= <-]. constructor; [exact Hx|]. now apply IH.
Qed.

Lemma forallb_false_Exists {A} (f : A -> bool) (l : list A) :
  forallb f l = false -> Exists (fun x => f x = false) l.
Proof.
  induction l as [|x l IH]; simpl; [discriminate|].
  destruct (f x) eqn:Hx; simpl.
  - intros H. apply Exists_cons_tl. now apply IH.
  - intros _. now apply Exists_cons_hd.
Qed.

Lemma Array_join_throws_iff (sep : string) (items : list value) :
  (exists e, Array_join sep items = Throw e) <->
  Exists (fun x => nullish x = false /\ convertible x = false) items.
Proof.
  assert (Hok : forallb (fun x => nullish x || convertible x) items = true <->
                exists texts, element_texts items = Ok texts).
  { apply element_texts_ok, List.Forall_forall. intros v _. apply ToString_convertible. }
  unfold Array_join. split.
  - intros [e He].
    destruct (forallb (fun x => nullish x || convertible x) items) eqn:Hall.
    + destruct (proj1 Hok eq_refl) as [texts Ht]. rewrite Ht in He. discriminate He.
    + apply forallb_false_Exists in Hall. apply List.Exists_exists in Hall as (x & Hin & Hx).
      apply List.Exists_exists. exists x. split; [exact Hin|].
      now apply orb_false_iff in Hx.
  - intros Hex. destruct (element_texts items) as [texts|e] eqn:Ht;
      [|now exists e].
    assert (Hall : forallb (fun x => nullish x || convertible x) items = true)
      by (apply Hok; now eexists).
    rewrite forallb_forall in Hall.
    apply List.Exists_exists in Hex as (x & Hin & Hn & Hc).
    specialize (Hall x Hin). rewrite Hn, Hc in Hall. discriminate Hall.
Qed.

Lemma top_transcript_not_nullish (v token : value) :
  top_transcript v = Ok token -> nullish token = false.
Proof.
  unfold top_transcript, member. destruct (nullish v); [discriminate|].
  cbn [obind]. unfold logical_or. intros [= <-].
  destruct (truthy _) eqn:Htruthy; [|reflexivity].
  destruct (opt_member _ _); try reflexivity; discriminate Htruthy.
Qed.

(** The transcript extraction throws exactly when [result.results] is
    there and is not an array, or is an array with a segment that is
    [undefined] or [null], or whose token (the top alternative's
    transcript, or the empty string) cannot be converted to a string by
    [join], being or holding an object with an own [toString] property;
    a response without [result] or without [results] gives the empty
    transcript. *)
Theorem transcript_of_throws_iff (sttResp : value) :
  let results := opt_member (opt_member sttResp "result") "results" in
  ((exists e, transcript_of sttResp = Throw e) <->
   nullish results = false /\
   forall segments, results = VArr segments ->
     Exists (fun v => nullish v = true \/
                      exists token, top_transcript v = Ok token /\
                                    convertible token = false) segments) /\
  (nullish results = true -> transcript_of sttResp = Ok (VStr "")).
Proof.
  intros results. unfold transcript_of. fold results.
  destruct (nullish results) eqn:Hnull.
  { split; [|reflexivity]. split.
    - intros [e H]. discriminate H.
    - intros [H _]. discriminate H. }
  split; [|discriminate].
  destruct results as [| | | | |segments|]; try discriminate Hnull;
    try (split; [intros _; split; [reflexivity|discriminate]
                |intros _; eexists; reflexivity]).
  destruct (Array_map_top_transcript_cases segments)
    as [(tokens & Hmap & Hall) | (e' & Hmap & Hex)]; rewrite Hmap; cbn [obind].
  - pose proof (Array_map_Forall2 _ _ _ Hmap) as Htokens.
    pose proof (Array_join_throws_iff " " tokens) as Hjoin.
    split.
    + intros [e He]. split; [reflexivity|]. intros segments' [= <-].
      assert (Hthrow : exists e, Array_join " " tokens = Throw e).
      { destruct (Array_join " " tokens); [discriminate He|now eexists]. }
      apply Hjoin in Hthrow. clear - Htokens Hthrow.
      induction Htokens as [|v token segments tokens Hv _ IH].
      * inversion Hthrow.
      * inversion Hthrow as [? ? [_ Hc]|? ? Hrest]; subst.
        -- apply Exists_cons_hd. right. now exists token.
        -- apply Exists_cons_tl. now apply IH.
    + intros [_ Hseg]. specialize (Hseg segments eq_refl).
      assert (Hthrow : exists e, Array_join " " tokens = Throw e).
      { apply Hjoin. clear - Htokens Hseg Hall.
        induction Htokens as [|v token segments tokens Hv _ IH].
        - inversion Hseg.
        - inversion Hall as [|? ? Hnn Hall']; subst.
          inversion Hseg as [? ? [Hn|(token' & Hv' & Hc)]|? ? Hrest]; subst.
          + congruence.
          + apply Exists_cons_hd. rewrite Hv in Hv'. injection Hv' as <-.
            split; [exact (top_transcript_not_nullish _ _ Hv)|exact Hc].
          + apply Exists_cons_tl. now apply IH. }
      destruct Hthrow as [e ->]. now exists e.
  - split.
    + intros _. split; [reflexivity|]. intros segments' [= <-].
      apply List.Exists_exists in Hex as (v & Hin & Hv).
      apply List.Exists_exists. exists v. split; [exact Hin|now left].
    + intros _. now exists e'.
Qed.

Lemma transcript_of_throws_iff_witness :
  let segment := VObj [("alternatives",
                        VArr [VObj [("transcript", VObj [("toString", VNum "1")])]])] in
  let sttResp := VObj [("result", VObj [("results",
                   VArr [Spec.encode_segment [{| Spec.transcript := "hello" |}];
                         segment])])] in
  let bad := fun v => nullish v = true \/
                      exists token, top_transcript v = Ok token /\
                                    convertible token = false in
  (nullish (opt_member (opt_member sttResp "result") "results") = false /\
   forall segments,
     opt_member (opt_member sttResp "result") "results" = VArr segments ->
     Exists bad segments) /\
  exists e, transcript_of sttResp = Throw e.
Proof.
  intros segment sttResp bad.
  assert (H : nullish (opt_member (opt_member sttResp "result") "results") = false /\
              forall segments,
                opt_member (opt_member sttResp "result") "results" = VArr segments ->
                Exists bad segments).
  { split; [reflexivity|]. intros segments [= <-].
    apply Exists_cons_tl, Exists_cons_hd. right. eexists. split; reflexivity. }
  split; [exact H|].
  apply (proj1 (transcript_of_throws_iff sttResp)). exact H.
Defined.

Lemma transcript_of_is_string (sttResp transcript : value) :
  transcript_of sttResp = Ok transcript -> exists s, transcript = VStr s.
Proof.
  unfold transcript_of.
  destruct (nullish _); [intros [= <-]; now exists ""|].
  destruct (opt_member _ "results") as [| | | | |segments|]; try discriminate.
  destruct (Array_map top_transcript segments) as [tokens|]; [|discriminate].
  cbn [obind]. destruct (Array_join " " tokens) as [joined|]; [|discriminate].
  cbn [obind]. rewrite logical_or_string. intros [= <-]. eexists. reflexivity.
Qed.

(** Whatever the recognition response, a transcript that is built is a
    string without white space at either end. *)
Theorem transcript_of_trimmed (sttResp transcript : value) :
  transcript_of sttResp = Ok transcript ->
  exists s, transcript = VStr s /\ trimStart s = s /\ trimEnd s = s.
Proof.
  unfold transcript_of.
  destruct (nullish _).
  - intros [= <-]. exists "". repeat split.
  - destruct (opt_member _ "results") as [| | | | |segments|]; try discriminate.
    destruct (Array_map top_transcript segments) as [tokens|]; [|discriminate].
    cbn [obind]. destruct (Array_join " " tokens) as [joined|]; [|discriminate].
    cbn [obind]. rewrite logical_or_string. intros [= <-].
    eexists. split; [reflexivity|]. apply trim_no_outer_white_space.
Qed.

Lemma transcript_of_trimmed_witness :
  let sttResp := Spec.encode_response
                   [[{| Spec.transcript := " hello " |}]; []] in
  transcript_of sttResp = Ok (VStr "hello") /\
  exists s, VStr "hello" = VStr s /\ trimStart s = s /\ trimEnd s = s.
Proof.
  intros sttResp. split; [reflexivity|].
  apply (transcript_of_trimmed sttResp (VStr "hello")). reflexivity.
Defined.

(** ** Generation: what the normaliser can return *)

(** The normalised text is never [null], and it is [undefined] only
    when the provider resolved with [undefined] itself: every other
    response, [null] included, yields a value for the text field. *)
Theorem normalize_generated_defined (r : value) :
  normalize_generated r <> VNull /\
  (normalize_generated r = VUndefined <-> r = VUndefined).
Proof.
  unfold normalize_generated, nullish_coalesce.
  destruct (nullish (opt_member (opt_member r "result") "generated_text")) eqn:H1.
  2:{ split; [intros E; rewrite E in H1; discriminate|].
      split; [intros E; rewrite E in H1; discriminate|].
      intros ->. discriminate H1. }
  destruct (nullish (opt_member r "generated_text")) eqn:H2.
  2:{ split; [intros E; rewrite E in H2; discriminate|].
      split; [intros E; rewrite E in H2; discriminate|].
      intros ->. discriminate H2. }
  destruct (nullish (opt_member (opt_member r "result") "output_text")) eqn:H3.
  2:{ split; [intros E; rewrite E in H3; discriminate|].
      split; [intros E; rewrite E in H3; discriminate|].
      intros ->. discriminate H3. }
  unfold JSON_stringify. destruct r as [| |[]|text| | |]; simpl;
    try (destruct (_ || _));
    (split; [discriminate|]); split; try discriminate; try reflexivity;
    intros H; discriminate H.
Qed.

(** ** Every request is answered *)

(** In a run whose awaited SDK calls all settle (each resolves or
    rejects, as [Services] has them; the handlers set no timeout, and a
    call that never settles leaves the request unanswered), no handler
    lets an exception escape, and the run ends with one answer sent:
    either the endpoint's status-500 error, or the status-200 payload of
    the endpoint (a text field; audio bytes under the requested
    Content-Type, or under "application/octet-stream" when the requested
    one is not truthy; a transcript that is a string). *)
Theorem handlers_always_answer env svc (files : gset string) :
  (forall body,
     fst (generate_handler env svc body (initial files)) = Ok tt /\
     (response (final (generate_handler env svc body) files)
        = error_response "Granite generation failed" \/
      exists text, response (final (generate_handler env svc body) files)
                   = ok_json [("text", text)])) /\
  (forall body,
     fst (tts_handler env svc body (initial files)) = Ok tt /\
     (response (final (tts_handler env svc body) files)
        = error_response "TTS failed" \/
      exists audio, response (final (tts_handler env svc body) files)
                    = {| statusCode := 200;
                         headers := [("Content-Type",
                                      content_type_sent (tts_format body))];
                         sent := Some (RawBody audio) |})) /\
  (forall file,
     fst (stt_handler svc file (initial files)) = Ok tt /\
     (response (final (stt_handler svc file) files)
        = error_response "STT failed" \/
      exists transcript, response (final (stt_handler svc file) files)
                         = ok_json [("transcript", VStr transcript)])).
Proof.
  repeat apply conj.
  - intros body. unfold final. rewrite generate_handler_run.
    destruct (nullish body); [split; [reflexivity|left; reflexivity]|].
    destruct (system_prompt _ _); [|split; [reflexivity|left; reflexivity]].
    cbv zeta. destruct (wx_generateText svc _) as [r|e].
    + split; [reflexivity|]. right. eexists. reflexivity.
    + split; [reflexivity|]. left. reflexivity.
  - intros body. unfold final. rewrite tts_handler_run.
    destruct (nullish body); [split; [reflexivity|left; reflexivity]|].
    cbv zeta.
    destruct (tts_synthesize svc _) as [synth|e];
      [|split; [reflexivity|left; reflexivity]].
    destruct (tts_repairWavHeaderStream svc _) as [audio|e];
      [|split; [reflexivity|left; reflexivity]].
    destruct (header_value_ok svc _);
      [|split; [reflexivity|left; reflexivity]].
    split; [reflexivity|]. right. eexists. reflexivity.
  - intros file. unfold final. rewrite stt_handler_run.
    destruct file as [f|]; [|split; [reflexivity|left; reflexivity]].
    cbv zeta.
    destruct (stt_recognize svc _) as [sttResp|e];
      [|split; [reflexivity|left; reflexivity]].
    destruct (transcript_of sttResp) as [transcript|e] eqn:Htr;
      [|split; [reflexivity|left; reflexivity]].
    split; [reflexivity|]. right.
    destruct (transcript_of_is_string _ _ Htr) as (s & ->).
    exists s. reflexivity.
Qed.

(** ** When a request succeeds *)

(** A generation request is answered with status 200 exactly when its
    body is there, the task and the tone can be written into the system
    prompt (neither is or holds an object with an own [toString]
    property), and the provider resolves; the answer is then the
    normalised text of the provider's response. A task or a tone that
    cannot be written is answered with the status-500 error, without a
    provider call. *)
Theorem generate_success_iff env svc (body : value) (files : gset string) :
  (statusCode (response (final (generate_handler env svc body) files)) = 200 <->
   nullish body = false /\
   convertible (request_task body) = true /\
   convertible (request_tone body) = true /\
   exists r, wx_generateText svc (generate_request env body) = Ok r) /\
  (forall r,
     nullish body = false ->
     convertible (request_task body) = true ->
     convertible (request_tone body) = true ->
     wx_generateText svc (generate_request env body) = Ok r ->
     response (final (generate_handler env svc body) files)
       = ok_json [("text", normalize_generated r)]) /\
  (convertible (request_task body) = false \/
   convertible (request_tone body) = false ->
   response (final (generate_handler env svc body) files)
     = error_response "Granite generation failed" /\
   count is_sdk_call (final (generate_handler env svc body) files) = 0%nat).
Proof.
  unfold final, count. rewrite generate_handler_run.
  pose proof (system_prompt_ok (request_task body) (request_tone body)) as Hok.
  destruct (nullish body).
  { repeat apply conj.
    - discriminate.
    - intros [H _]. discriminate H.
    - discriminate.
    - intros _. split; reflexivity. }
  destruct (system_prompt _ _) as [system|e0].
  - assert (Hconv : convertible (request_task body) = true /\
                    convertible (request_tone body) = true)
      by (apply Hok; now eexists).
    destruct Hconv as [Htask Htone]. cbv zeta.
    destruct (wx_generateText svc _) as [r|e]; repeat apply conj.
    + intros _. repeat split; [exact Htask|exact Htone|now exists r].
    + reflexivity.
    + intros r' _ _ _ [= <-]. reflexivity.
    + intros [H|H]; congruence.
    + discriminate.
    + intros (_ & _ & _ & r & H). discriminate H.
    + discriminate.
    + intros [H|H]; congruence.
  - repeat apply conj.
    + discriminate.
    + intros (_ & Htask & Htone & _).
      destruct (proj2 Hok (conj Htask Htone)) as [system H]. discriminate H.
    + intros r _ Htask Htone _.
      destruct (proj2 Hok (conj Htask Htone)) as [system H]. discriminate H.
    + intros _. split; reflexivity.
Qed.

Lemma generate_success_iff_witness :
  let env : gmap string string := ∅ in
  let body := VObj [("prompt", VStr "The sky is blue.")] in
  let r := VObj [("generated_text", VStr "The sky exhibits a blue hue.")] in
  nullish body = false /\
  convertible (request_task body) = true /\
  convertible (request_tone body) = true /\
  wx_generateText stub_services (generate_request env body) = Ok r /\
  response (final (generate_handler env stub_services body) ∅)
    = ok_json [("text", VStr "The sky exhibits a blue hue.")].
Proof.
  intros env body r. do 4 (split; [reflexivity|]).
  apply (proj1 (proj2 (generate_success_iff env stub_services body ∅)) r);
    reflexivity.
Defined.

Example generate_task_with_own_toString :
  let body := VObj [("prompt", VStr "p"); ("task", VObj [("toString", VNum "1")])] in
  generate_handler ∅ stub_services body (initial ∅)
  = (Ok tt,
     {| trace := [EConsoleError "watsonx error:"
                    (TypeError "Cannot convert object to primitive value")];
        disk := ∅;
        response := error_response "Granite generation failed" |}).
Proof. reflexivity. Qed.

(** A synthesis request is answered with status 200 exactly when its
    body is there, synthesize and the header repair both resolve, and
    the runtime accepts the format as a header value; it is answered
    with status 500 in particular when the format is refused, after
    both provider calls have been made. *)
Theorem tts_success_iff env svc (body : value) (files : gset string) :
  (statusCode (response (final (tts_handler env svc body) files)) = 200 <->
   nullish body = false /\
   header_value_ok svc (tts_format body) = true /\
   exists synth audio,
     tts_synthesize svc (tts_request env body) = Ok synth /\
     tts_repairWavHeaderStream svc (result synth) = Ok audio) /\
  (forall synth audio,
     nullish body = false ->
     tts_synthesize svc (tts_request env body) = Ok synth ->
     tts_repairWavHeaderStream svc (result synth) = Ok audio ->
     header_value_ok svc (tts_format body) = false ->
     response (final (tts_handler env svc body) files) = error_response "TTS failed" /\
     count is_sdk_call (final (tts_handler env svc body) files) = 2%nat).
Proof.
  unfold final, count. rewrite tts_handler_run.
  destruct (nullish body).
  { split; [|discriminate]. split; [discriminate|]. intros [H _]. discriminate H. }
  cbv zeta. destruct (tts_synthesize svc _) as [synth|e] eqn:Hsynth.
  2:{ split; [|discriminate]. split; [discriminate|].
      intros (_ & _ & s & a & H & _). discriminate H. }
  destruct (tts_repairWavHeaderStream svc (result synth)) as [audio|e] eqn:Hrepair.
  2:{ split.
      - split; [discriminate|]. intros (_ & _ & s & a & [= <-] & H).
        rewrite Hrepair in H. discriminate H.
      - intros s a _ [= <-] H. rewrite Hrepair in H. discriminate H. }
  destruct (header_value_ok svc _) eqn:Hok.
  - split.
    + split; [|reflexivity]. intros _. split; [reflexivity|].
      split; [reflexivity|]. exists synth, audio. split; [reflexivity|exact Hrepair].
    + discriminate.
  - split.
    + split; [discriminate|]. intros (_ & H & _). discriminate H.
    + intros s a _ _ _ _. split; reflexivity.
Qed.

Lemma tts_success_iff_witness :
  let env : gmap string string := ∅ in
  let body := VObj [("text", VStr "Hello"); ("format", VNull)] in
  nullish body = false /\
  tts_synthesize stub_services (tts_request env body)
    = Ok {| result := [Byte.x49; Byte.x44] |} /\
  tts_repairWavHeaderStream stub_services [Byte.x49; Byte.x44]
    = Ok [Byte.x49; Byte.x44] /\
  header_value_ok stub_services (tts_format body) = false /\
  response (final (tts_handler env stub_services body) ∅) = error_response "TTS failed" /\
  count is_sdk_call (final (tts_handler env stub_services body) ∅) = 2%nat.
Proof.
  intros env body. do 4 (split; [reflexivity|]).
  apply (proj2 (tts_success_iff env stub_services body ∅)
           {| result := [Byte.x49; Byte.x44] |} [Byte.x49; Byte.x44]);
    reflexivity.
Defined.

(** A transcription request is answered with status 200 exactly when a
    file was uploaded, the recogniser resolves and the transcript can
    be built from its response; the answer is then that transcript. *)
Theorem stt_success_iff svc (file : option UploadedFile) (files : gset string) :
  (statusCode (response (final (stt_handler svc file) files)) = 200 <->
   exists f sttResp transcript,
     file = Some f /\
     stt_recognize svc (stt_request f) = Ok sttResp /\
     transcript_of sttResp = Ok transcript) /\
  (forall f sttResp transcript,
     file = Some f ->
     stt_recognize svc (stt_request f) = Ok sttResp ->
     transcript_of sttResp = Ok transcript ->
     response (final (stt_handler svc file) files)
       = ok_json [("transcript", transcript)]).
Proof.
  unfold final. rewrite stt_handler_run.
  destruct file as [f|].
  2:{ split; [|discriminate]. split; [discriminate|].
      intros (f & r & t & H & _). discriminate H. }
  cbv zeta. destruct (stt_recognize svc _) as [sttResp|e] eqn:Hrec.
  2:{ split.
      - split; [discriminate|]. intros (f' & r & t & [= <-] & H & _).
        rewrite Hrec in H. discriminate H.
      - intros f' r t [= <-] H. rewrite Hrec in H. discriminate H. }
  destruct (transcript_of sttResp) as [transcript|e] eqn:Htr.
  - split.
    + split; [|reflexivity]. intros _. exists f, sttResp, transcript.
      repeat split; assumption.
    + intros f' r t [= <-] H. rewrite Hrec in H. injection H as <-.
      rewrite Htr. intros [= <-]. reflexivity.
  - split.
    + split; [discriminate|]. intros (f' & r & t & [= <-] & H & Ht).
      rewrite Hrec in H. injection H as <-. rewrite Htr in Ht. discriminate Ht.
    + intros f' r t [= <-] H. rewrite Hrec in H. injection H as <-.
      rewrite Htr. discriminate.
Qed.

Lemma stt_success_iff_witness :
  let f := {| path := "uploads/5f1c"; mimetype := "audio/webm" |} in
  let sttResp := Spec.encode_response
                   [[{| Spec.transcript := "hello" |}]; [{| Spec.transcript := "world" |}]] in
  stt_recognize stub_services (stt_request f) = Ok sttResp /\
  transcript_of sttResp = Ok (VStr "hello world") /\
  response (final (stt_handler stub_services (Some f)) ∅)
    = ok_json [("transcript", VStr "hello world")].
Proof.
  intros f sttResp. split; [reflexivity|]. split; [reflexivity|].
  apply (proj2 (stt_success_iff stub_services (Some f) ∅) f sttResp (VStr "hello world"));
    reflexivity.
Defined.

(** ** What a run does and does not do *)

(** No handler retries or fans out: a generation request makes at most
    one SDK call, a transcription request at most one, a synthesis
    request at most one synthesize and one repair; and each handler
    calls only its own provider. *)
Theorem at_most_one_call_per_provider env svc (files : gset string) :
  (forall body,
     (count is_generateText (final (generate_handler env svc body) files) <= 1)%nat /\
     count is_sdk_call (final (generate_handler env svc body) files)
       = count is_generateText (final (generate_handler env svc body) files)) /\
  (forall body,
     (count is_synthesize (final (tts_handler env svc body) files) <= 1)%nat /\
     (count is_repair (final (tts_handler env svc body) files)
        <= count is_synthesize (final (tts_handler env svc body) files))%nat /\
     count is_sdk_call (final (tts_handler env svc body) files)
       = (count is_synthesize (final (tts_handler env svc body) files) +
          count is_repair (final (tts_handler env svc body) files))%nat) /\
  (forall file,
     (count is_recognize (final (stt_handler svc file) files) <= 1)%nat /\
     count is_sdk_call (final (stt_handler svc file) files)
       = count is_recognize (final (stt_handler svc file) files)).
Proof.
  unfold final, count. repeat apply conj.
  - intros body. rewrite generate_handler_run.
    destruct (nullish body); [simpl; lia|].
    destruct (system_prompt _ _); [|simpl; lia]. cbv zeta.
    destruct (wx_generateText svc _); simpl; lia.
  - intros body. rewrite tts_handler_run.
    destruct (nullish body); [simpl; lia|]. cbv zeta.
    destruct (tts_synthesize svc _); [|simpl; lia].
    destruct (tts_repairWavHeaderStream svc _); [|simpl; lia].
    destruct (header_value_ok svc _); simpl; lia.
  - intros file. rewrite stt_handler_run.
    destruct file as [f|]; [|simpl; lia]. cbv zeta.
    destruct (stt_recognize svc _) as [sttResp|]; [|simpl; lia].
    destruct (transcript_of sttResp); simpl; lia.
Qed.

(** A run logs through console.error once when it answers with status
    500 and not at all when it answers with status 200. *)
Theorem failure_logged_exactly_once env svc (files : gset string) :
  (forall body,
     count is_console_error (final (generate_handler env svc body) files)
     = if statusCode (response (final (generate_handler env svc body) files)) =? 500
       then 1%nat else 0%nat) /\
  (forall body,
     count is_console_error (final (tts_handler env svc body) files)
     = if statusCode (response (final (tts_handler env svc body) files)) =? 500
       then 1%nat else 0%nat) /\
  (forall file,
     count is_console_error (final (stt_handler svc file) files)
     = if statusCode (response (final (stt_handler svc file) files)) =? 500
       then 1%nat else 0%nat).
Proof.
  unfold final, count. repeat apply conj.
  - intros body. rewrite generate_handler_run.
    destruct (nullish body); [reflexivity|].
    destruct (system_prompt _ _); [|reflexivity]. cbv zeta.
    destruct (wx_generateText svc _); reflexivity.
  - intros body. rewrite tts_handler_run.
    destruct (nullish body); [reflexivity|]. cbv zeta.
    destruct (tts_synthesize svc _); [|reflexivity].
    destruct (tts_repairWavHeaderStream svc _); [|reflexivity].
    destruct (header_value_ok svc _); reflexivity.
  - intros file. rewrite stt_handler_run.
    destruct file as [f|]; [|reflexivity]. cbv zeta.
    destruct (stt_recognize svc _) as [sttResp|]; [|reflexivity].
    destruct (transcript_of sttResp); reflexivity.
Qed.

(** The generation and synthesis handlers do nothing to the file
    system; the transcription handler removes at most its own upload:
    every other file on disk before the request is there after it, and
    nothing is created. *)
Theorem other_files_untouched env svc (files : gset string) :
  (forall body,
     disk (final (generate_handler env svc body) files) = files /\
     count is_fs_event (final (generate_handler env svc body) files) = 0%nat) /\
  (forall body,
     disk (final (tts_handler env svc body) files) = files /\
     count is_fs_event (final (tts_handler env svc body) files) = 0%nat) /\
  disk (final (stt_handler svc None) files) = files /\
  (forall f q,
     (q ∈ disk (final (stt_handler svc (Some f)) files) -> q ∈ files) /\
     (q <> path f -> q ∈ files -> q ∈ disk (final (stt_handler svc (Some f)) files))).
Proof.
  unfold final, count. repeat apply conj.
  - intros body. rewrite generate_handler_run.
    destruct (nullish body); [split; reflexivity|].
    destruct (system_prompt _ _); [|split; reflexivity]. cbv zeta.
    destruct (wx_generateText svc _); split; reflexivity.
  - intros body. rewrite tts_handler_run.
    destruct (nullish body); [split; reflexivity|]. cbv zeta.
    destruct (tts_synthesize svc _); [|split; reflexivity].
    destruct (tts_repairWavHeaderStream svc _); [|split; reflexivity].
    destruct (header_value_ok svc _); split; reflexivity.
  - rewrite stt_handler_run. reflexivity.
  - intros f q. rewrite stt_handler_run. cbv zeta.
    destruct (stt_recognize svc _) as [sttResp|];
      [destruct (transcript_of sttResp)|]; cbn [snd disk];
      rewrite ?elem_of_difference, ?elem_of_singleton; split; tauto.
Qed.

Lemma other_files_untouched_witness :
  let f := {| path := "uploads/5f1c"; mimetype := "audio/webm" |} in
  let files : gset string := {[ "uploads/5f1c"; "uploads/77aa" ]} in
  "uploads/77aa" <> path f /\
  "uploads/77aa" ∈ files /\
  "uploads/77aa" ∈ disk (final (stt_handler stub_services (Some f)) files).
Proof.
  intros f files.
  assert (Hin : "uploads/77aa" ∈ files).
  { apply elem_of_union. right. apply elem_of_singleton. reflexivity. }
  split; [discriminate|]. split; [exact Hin|].
  destruct (other_files_untouched ∅ stub_services files) as (_ & _ & _ & Hstt).
  apply (proj2 (Hstt f "uploads/77aa")); [discriminate|exact Hin].
Defined.

Lemma stt_recognized_unlinks_witness :
  let f := {| path := "uploads/5f1c"; mimetype := "audio/webm" |} in
  let files : gset string := {[ "uploads/5f1c" ]} in
  let sttResp := VObj [("result", VObj [("results", VArr [VNull])])] in
  let svc := {| wx_generateText := wx_generateText stub_services;
                tts_synthesize := tts_synthesize stub_services;
                tts_repairWavHeaderStream := tts_repairWavHeaderStream stub_services;
                stt_recognize := fun _ => Ok sttResp;
                header_value_ok := header_value_ok stub_services |} in
  stt_recognize svc (stt_request f) = Ok sttResp /\
  response (final (stt_handler svc (Some f)) files) = error_response "STT failed" /\
  In (EUnlink (path f)) (trace (final (stt_handler svc (Some f)) files)) /\
  path f ∉ disk (final (stt_handler svc (Some f)) files).
Proof.
  intros f files sttResp svc. split; [reflexivity|]. split; [reflexivity|].
  apply (stt_recognized_unlinks svc f files sttResp). reflexivity.
Defined.

(** The upload is never removed before the recogniser has been given
    its stream: an unlink in the trace is the upload's own, and it is
    preceded by the opening of the read stream and by the recognize
    call on that stream. *)
Theorem unlink_only_after_recognize svc (file : option UploadedFile)
    (files : gset string) (before after : list event) (q : string) :
  trace (final (stt_handler svc file) files) = (before ++ EUnlink q :: after)%list ->
  exists f, file = Some f /\ q = path f /\
            before = [ECreateReadStream (path f); ERecognize (stt_request f)].
Proof.
  unfold final. rewrite stt_handler_run.
  destruct file as [f|].
  - cbv zeta. destruct (stt_recognize svc _) as [sttResp|];
      [destruct (transcript_of sttResp)|]; cbn [snd trace]; intros H;
      repeat (destruct before as [|? before]; simpl in H;
              [try discriminate H | injection H as <- H]);
      try discriminate H;
      try (injection H as <- _; exists f; repeat split);
      try (destruct before; discriminate H).
  - cbn [snd trace]. intros H.
    destruct before as [|? before]; [discriminate H|].
    destruct before; discriminate H.
Qed.

Lemma unlink_only_after_recognize_witness :
  let f := {| path := "uploads/5f1c"; mimetype := "audio/webm" |} in
  trace (final (stt_handler stub_services (Some f)) ∅)
    = ([ECreateReadStream "uploads/5f1c"; ERecognize (stt_request f)]
       ++ EUnlink "uploads/5f1c" :: [])%list /\
  exists f', Some f = Some f' /\ "uploads/5f1c" = path f' /\
             [ECreateReadStream "uploads/5f1c"; ERecognize (stt_request f)]
             = [ECreateReadStream (path f'); ERecognize (stt_request f')].
Proof.
  intros f. split; [reflexivity|].
  apply (unlink_only_after_recognize stub_services (Some f) ∅ _ [] "uploads/5f1c").
  reflexivity.
Defined.

(** ** What is sent to the providers *)

(** Defaults of the generation request: with the task and the tone
    both omitted, the provider is called with the system prompt for
    task "rewrite" and tone "Neutral"; a task given as [null] is not
    defaulted: with a tone [v] that is a string, the provider is called
    with a system prompt whose task is the text null. *)
Theorem generate_task_tone_defaults env svc (body : value) (files : gset string) :
  nullish body = false ->
  (own_prop body "task" = VUndefined ->
   own_prop body "tone" = VUndefined ->
   exists p rest,
     trace (final (generate_handler env svc body) files) = EGenerateText p :: rest /\
     context_system_prompt p
     = "You are EchoVerse's writer. Task: rewrite." ++ LF ++
       "Tone: Neutral. Keep meaning intact. Output only the transformed text.") /\
  (forall v,
   own_prop body "task" = VNull ->
   own_prop body "tone" = VStr v ->
   exists p rest,
     trace (final (generate_handler env svc body) files) = EGenerateText p :: rest /\
     context_system_prompt p
     = "You are EchoVerse's writer. Task: null." ++ LF ++
       "Tone: " ++ v ++ ". Keep meaning intact. Output only the transformed text.").
Proof.
  intros Hbody.
  assert (Hsent : forall system,
            system_prompt (request_task body) (request_tone body) = Ok system ->
            exists p rest,
              trace (final (generate_handler env svc body) files)
                = EGenerateText p :: rest /\
              context_system_prompt p = system).
  { intros system Hsys. exists (generate_request env body).
    unfold final. rewrite generate_handler_run, Hbody, Hsys. cbv zeta.
    destruct (wx_generateText svc _); eexists;
      (split; [reflexivity|]);
      cbn [generate_request generateParams context_system_prompt];
      now rewrite Hsys. }
  split.
  - intros Htask Htone. apply Hsent.
    unfold request_task, request_tone. rewrite Htask, Htone. reflexivity.
  - intros v Htask Htone. apply Hsent.
    unfold request_task, request_tone. rewrite Htask, Htone. reflexivity.
Qed.

Lemma generate_task_tone_defaults_witness :
  let env : gmap string string := ∅ in
  let body := VObj [("prompt", VStr "The sky is blue.")] in
  nullish body = false /\
  own_prop body "task" = VUndefined /\
  own_prop body "tone" = VUndefined /\
  exists p rest,
    trace (final (generate_handler env stub_services body) ∅) = EGenerateText p :: rest /\
    context_system_prompt p
    = "You are EchoVerse's writer. Task: rewrite." ++ LF ++
      "Tone: Neutral. Keep meaning intact. Output only the transformed text.".
Proof.
  intros env body. do 3 (split; [reflexivity|]).
  destruct (generate_task_tone_defaults env stub_services body ∅ eq_refl)
    as (Hdefault & _).
  apply Hdefault; reflexivity.
Defined.

(** Every call to the generation provider names the Granite model
    "ibm/granite-13b-instruct-v2" and the project of the configuration's
    WATSONX_PROJECT_ID, whatever the request body holds; without that
    variable the call is still made, with an [undefined] project. *)
Theorem generate_model_and_project_fixed env svc (body : value)
    (files : gset string) (p : GenerateTextParams) :
  In (EGenerateText p) (trace (final (generate_handler env svc body) files)) ->
  modelId p = "ibm/granite-13b-instruct-v2" /\
  projectId p = match env !! "WATSONX_PROJECT_ID" with
                | Some project => VStr project
                | None => VUndefined
                end.
Proof.
  unfold final. rewrite generate_handler_run.
  destruct (nullish body).
  - intros [H|[]]. discriminate H.
  - destruct (system_prompt _ _); [|intros [H|[]]; discriminate H].
    cbv zeta. destruct (wx_generateText svc _); cbn [snd trace].
    + intros [[= <-]|[]]. split; reflexivity.
    + intros [[= <-]|[H|[]]]; [split; reflexivity|discriminate H].
Qed.

Lemma generate_model_and_project_fixed_witness :
  let env : gmap string string := ∅ in
  let body := VObj [("prompt", VStr "The sky is blue.");
                    ("modelId", VStr "other/model"); ("projectId", VStr "mine")] in
  In (EGenerateText (generate_request env body))
     (trace (final (generate_handler env stub_services body) ∅)) /\
  modelId (generate_request env body) = "ibm/granite-13b-instruct-v2" /\
  projectId (generate_request env body) = VUndefined.
Proof.
  intros env body. split; [left; reflexivity|].
  apply (generate_model_and_project_fixed env stub_services body ∅).
  left. reflexivity.
Defined.

(** Every call to the recogniser asks for the model
    "en-US_BroadbandModel", reads the stream opened on the uploaded
    file's path, and carries a content type that is never empty: the
    upload's MIME type, or "audio/webm" when that is the empty string. *)
Theorem recognize_request_shape svc (file : option UploadedFile)
    (files : gset string) (p : RecognizeParams) :
  In (ERecognize p) (trace (final (stt_handler svc file) files)) ->
  exists f, file = Some f /\
    model p = "en-US_BroadbandModel" /\
    stream_path (audio p) = path f /\
    contentType p <> "" /\
    (mimetype f <> "" -> contentType p = mimetype f) /\
    (mimetype f = "" -> contentType p = "audio/webm").
Proof.
  unfold final. rewrite stt_handler_run.
  destruct file as [f|]; [|intros [H|[]]; discriminate H].
  assert (Hshape : model (stt_request f) = "en-US_BroadbandModel" /\
                   stream_path (audio (stt_request f)) = path f /\
                   contentType (stt_request f) <> "" /\
                   (mimetype f <> "" -> contentType (stt_request f) = mimetype f) /\
                   (mimetype f = "" -> contentType (stt_request f) = "audio/webm")).
  { cbn [stt_request model audio stream_path contentType].
    destruct (String.eqb_spec (mimetype f) "") as [Heq|Hne].
    - repeat split; [discriminate|congruence].
    - repeat split; [exact Hne|congruence]. }
  cbv zeta. intros Hin. exists f. split; [reflexivity|].
  destruct (stt_recognize svc _) as [sttResp|];
    [destruct (transcript_of sttResp)|]; cbn [snd trace] in Hin;
    repeat (destruct Hin as [Hin|Hin]; [try discriminate Hin|]);
    try contradiction; injection Hin as <-; exact Hshape.
Qed.

Lemma recognize_request_shape_witness :
  let f := {| path := "uploads/5f1c"; mimetype := "" |} in
  In (ERecognize (stt_request f))
     (trace (final (stt_handler stub_services (Some f)) ∅)) /\
  contentType (stt_request f) = "audio/webm".
Proof.
  intros f. split; [right; left; reflexivity|].
  destruct (recognize_request_shape stub_services (Some f) ∅ (stt_request f))
    as (f' & Hf & _ & _ & _ & _ & Hdefault).
  - right. left. reflexivity.
  - injection Hf as <-. apply Hdefault. reflexivity.
Defined.

(** ** The watsonx authenticator *)

(** After [authenticate] the options have a headers object whose
    Authorization entry is "Bearer " followed by the configuration's
    WATSONX_API_KEY (by the text undefined when the key is not
    configured: the call does not fail); every other header and every
    other option is as it was. *)
Theorem authenticate_sets_bearer env (options : Auth.AuthenticateOptions) :
  exists headers,
    Auth.request_headers (Auth.authenticate env options) = Some headers /\
    headers !! "Authorization"
      = Some (VStr ("Bearer " ++ match env !! "WATSONX_API_KEY" with
                                 | Some key => key
                                 | None => "undefined"
                                 end)) /\
    (forall name, name <> "Authorization" ->
       headers !! name = default (∅ : gmap string value)
                           (Auth.request_headers options) !! name) /\
    Auth.other_options (Auth.authenticate env options) = Auth.other_options options.
Proof.
  unfold Auth.authenticate. cbn [Auth.request_headers Auth.other_options].
  eexists. split; [reflexivity|]. repeat apply conj.
  - rewrite lookup_insert_eq. unfold process_env_text.
    destruct (env !! "WATSONX_API_KEY"); reflexivity.
  - intros name Hname. now rewrite lookup_insert_ne.
  - reflexivity.
Qed.

Lemma authenticate_sets_bearer_witness :
  let env : gmap string string := ∅ in
  let options := {| Auth.request_headers := Some {[ "Accept" := VStr "application/json" ]};
                    Auth.other_options := ∅ |} in
  exists headers,
    Auth.request_headers (Auth.authenticate env options) = Some headers /\
    headers !! "Authorization" = Some (VStr "Bearer undefined") /\
    headers !! "Accept" = Some (VStr "application/json").
Proof.
  intros env options.
  destruct (authenticate_sets_bearer env options) as (headers & H & Hauth & Hrest & _).
  exists headers. split; [exact H|]. split; [exact Hauth|].
  rewrite (Hrest "Accept") by discriminate. apply lookup_singleton_eq.
Defined.

(** Authenticating again changes nothing, and an Authorization header
    that the options already carry is replaced, not kept. *)
Theorem authenticate_idempotent env (options : Auth.AuthenticateOptions)
    (headers : gmap string value) (stale : value) :
  Auth.authenticate env (Auth.authenticate env options) = Auth.authenticate env options /\
  Auth.authenticate env
    {| Auth.request_headers := Some (<["Authorization" := stale]> headers);
       Auth.other_options := Auth.other_options options |}
  = Auth.authenticate env
      {| Auth.request_headers := Some headers;
         Auth.other_options := Auth.other_options options |}.
Proof.
  unfold Auth.authenticate. simpl. split; now rewrite insert_insert_eq.
Qed.

(** ** Recognition: segments without alternatives *)

Lemma trim_joined_empty_tokens (n : nat) :
  trim (String.concat " " (List.repeat "" n)) = "".
Proof.
  assert (H : forall m, trimStart (String.concat " " ("" :: List.repeat "" m)) = "").
  { induction m as [|m IH]; [reflexivity|]. exact IH. }
  unfold trim. destruct n as [|n]; [reflexivity|].
  cbn [List.repeat]. now rewrite H.
Qed.

Lemma top_alternative_of_empty (segments : list Spec.Segment) :
  Forall (fun seg => seg = []) segments ->
  List.map Spec.top_alternative segments = List.repeat "" (length segments).
Proof.
  induction 1 as [|seg segments -> _ IH]; simpl; [reflexivity|]. now rewrite IH.
Qed.

(** When no segment of the response has an alternative (an empty
    [alternatives] array, or none at all), the transcript is the empty
    string, however many segments there are: the separating spaces are
    trimmed away. *)
Theorem transcript_of_silent_segments
    (sttResp : value) (vs : list value) (segments : list Spec.Segment) :
  opt_member (opt_member sttResp "result") "results" = VArr vs ->
  Forall2 Spec.carries_segment vs segments ->
  Forall (fun seg => seg = []) segments ->
  transcript_of sttResp = Ok (VStr "").
Proof.
  intros Hres Hcarry Hempty. unfold transcript_of. rewrite Hres. simpl.
  rewrite (Array_map_carried _ _ Hcarry). simpl.
  rewrite Array_join_strings, (top_alternative_of_empty _ Hempty). simpl.
  rewrite trim_joined_empty_tokens. reflexivity.
Qed.

Lemma transcript_of_silent_segments_witness :
  let vs := [VObj [("final", VBool true)]; VObj [("alternatives", VArr [])];
             VObj [("alternatives", VNull)]] in
  let sttResp := VObj [("result", VObj [("results", VArr vs)])] in
  let segments : list Spec.Segment := [[]; []; []] in
  opt_member (opt_member sttResp "result") "results" = VArr vs /\
  Forall2 Spec.carries_segment vs segments /\
  Forall (fun seg => seg = []) segments /\
  transcript_of sttResp = Ok (VStr "").
Proof.
  intros vs sttResp segments.
  assert (Hcarry : Forall2 Spec.carries_segment vs segments).
  { repeat constructor.
    - eexists. split; [reflexivity|]. right. split; reflexivity.
    - eexists. split; [reflexivity|]. left. eexists. split; [reflexivity|constructor].
    - eexists. split; [reflexivity|]. right. split; reflexivity. }
  assert (Hempty : Forall (fun seg => seg = []) segments) by (repeat constructor).
  split; [reflexivity|]. split; [exact Hcarry|]. split; [exact Hempty|].
  apply (transcript_of_silent_segments sttResp vs segments);
    [reflexivity|exact Hcarry|exact Hempty].
Defined.
